(** * The M720 button remapper and its benchmark script, embedded in Rocq

    The development follows [m720_button_remapper_safe.py] and
    [benchmarks/benchmark.py].  Python integers are [Z], strings are
    [string], the dictionary returned by [device.capabilities()] is a
    [gmap].  Code that prints, spawns processes or raises is written in a
    small state-and-exception monad whose state records what the program
    did (lines printed, processes spawned, selector registration). *)

From Stdlib Require Import ZArith Lia Ascii Floats.
From stdpp Require Import base strings list gmap pretty.

#[local] Set Warnings "-inexact-float".

Open Scope Z_scope.

(** ** Python exceptions *)

(** The exception classes the two scripts name in an [except] clause, and
    two classes standing for everything else: [OtherException] is any other
    subclass of [Exception] (an [OSError] from an unplugged device, say). *)
Inductive exn_class :=
  | BlockingIOError
  | KeyboardInterrupt
  | PermissionError
  | FileNotFoundError
  | CalledProcessError
  | OtherException.

#[global] Instance exn_class_eq_dec : EqDecision exn_class.
Proof. solve_decision. Defined.

(** An exception value: its class and the text [str(e)] gives. *)
Record exn := { e_class : exn_class; e_str : string }.

(** [isinstance(e, Exception)]: [KeyboardInterrupt] derives from
    [BaseException] only. *)
Definition is_Exception (e : exn) : bool :=
  bool_decide (e_class e ≠ KeyboardInterrupt).

(** ** Text helpers *)

Definition nl : string := String "010"%char "".

(** [s * n] on a string. *)
Fixpoint str_repeat (s : string) (n : nat) : string :=
  match n with
  | O => ""
  | S n' => s +:+ str_repeat s n'
  end.

(** [needle in hay] on strings. *)
Fixpoint str_contains (needle hay : string) : bool :=
  String.prefix needle hay ||
  match hay with
  | EmptyString => false
  | String _ hay' => str_contains needle hay'
  end.

(** [repr] of a [str] without quotes or backslashes in it, and of a list
    whose items are already rendered. *)
Definition repr_str (s : string) : string := "'" +:+ s +:+ "'".
Definition repr_list (items : list string) : string :=
  "[" +:+ String.concat ", " items +:+ "]".

(** ** evdev *)

(** The codes of [evdev.ecodes] the script uses, as Linux's
    [input-event-codes.h] fixes them. *)
Module ecodes.
Definition EV_KEY : Z := 1.
Definition BTN_LEFT : Z := 272.
Definition BTN_RIGHT : Z := 273.
Definition BTN_MIDDLE : Z := 274.
Definition BTN_SIDE : Z := 275.
Definition BTN_EXTRA : Z := 276.
Definition BTN_FORWARD : Z := 277.
Definition BTN_BACK : Z := 278.
End ecodes.

(** [evdev.InputEvent]: the three fields the loop reads. *)
Record InputEvent := { type : Z; code : Z; value : Z }.

(** [evdev.InputDevice]: name, path and what [capabilities()] returns, a
    dictionary from event type to the list of supported codes. *)
Record InputDevice := {
  name : string;
  path : string;
  capabilities : gmap Z (list Z)
}.

(** ** The world outside the program *)

(** What a child process does: it exits with a return code, or starting it
    raises ([FileNotFoundError] when the executable is absent). *)
Inductive ProcOutcome :=
  | Exited (rc : Z)
  | Raises (e : exn).

(** Text produced by the libraries, which the program only prints:
    - [BTN_str c] is [str(evdev.ecodes.BTN[c])] when [c] is a key of the
      table, [BTN_repr c] is [repr(evdev.ecodes.BTN[c])];
    - [CalledProcessError_str argv rc] is [str] of the exception
      [subprocess.run(argv, check=True)] raises on return code [rc]. *)
Record Library := {
  BTN_str : Z -> option string;
  BTN_repr : Z -> string;
  CalledProcessError_str : list string -> Z -> string
}.

(** The operating system: [sys.argv[0]], the effective user id, what the
    [n]-th spawned process does ([n] counts [subprocess.run] and
    [subprocess.Popen] together), and what the [n]-th call of
    [evdev.list_devices()] finds, each path already opened as an
    [InputDevice]. *)
Record Env := {
  argv0 : string;
  geteuid : Z;
  subprocess : nat -> list string -> ProcOutcome;
  list_devices : nat -> list InputDevice
}.

(** One round of the dispatch loop as the device and the selector decide
    it: how the generator [device.read()] ends, and what
    [selector.select(timeout=1)] returns. *)
Inductive ReadEnd :=
  | Drained
  | ReadRaises (e : exn).

Inductive Step :=
  | Timeout
  | Ready (evs : list InputEvent) (fin : ReadEnd)
  | SelectRaises (e : exn).

(** ** Program state *)

(** What the program has done so far.  [calls] and [seen] are history
    variables: the argument of every [send_key_combo] call and every event
    bound by the [for] loop. *)
Record State := {
  out : list string;
  runs : list (list string);
  calls : list string;
  seen : list InputEvent;
  enums : nat;
  registered : bool;
  sel_open : bool
}.

Definition initial : State :=
  {| out := []; runs := []; calls := []; seen := []; enums := 0%nat;
     registered := false; sel_open := false |}.

Definition add_out (s : string) (st : State) : State :=
  {| out := out st ++ [s]; runs := runs st; calls := calls st;
     seen := seen st; enums := enums st;
     registered := registered st; sel_open := sel_open st |}.

Definition add_run (argv : list string) (st : State) : State :=
  {| out := out st; runs := runs st ++ [argv]; calls := calls st;
     seen := seen st; enums := enums st;
     registered := registered st; sel_open := sel_open st |}.

Definition add_call (keys : string) (st : State) : State :=
  {| out := out st; runs := runs st; calls := calls st ++ [keys];
     seen := seen st; enums := enums st;
     registered := registered st; sel_open := sel_open st |}.

Definition add_seen (ev : InputEvent) (st : State) : State :=
  {| out := out st; runs := runs st; calls := calls st;
     seen := seen st ++ [ev]; enums := enums st;
     registered := registered st; sel_open := sel_open st |}.

Definition add_enum (st : State) : State :=
  {| out := out st; runs := runs st; calls := calls st;
     seen := seen st; enums := S (enums st);
     registered := registered st; sel_open := sel_open st |}.

Definition set_selector (reg open : bool) (st : State) : State :=
  {| out := out st; runs := runs st; calls := calls st;
     seen := seen st; enums := enums st;
     registered := reg; sel_open := open |}.

(** ** The monad *)

(** A computation returns, raises, or is [Blocked]: it waits in [select]
    for a round the finite trace does not hold. *)
Inductive Result (A : Type) :=
  | Ok (a : A)
  | Raise (e : exn)
  | Blocked.
Arguments Ok {A} a.
Arguments Raise {A} e.
Arguments Blocked {A}.

Definition M (S A : Type) : Type := S -> Result A * S.

Section Monad.
Context {S : Type}.

Definition ret {A} (a : A) : M S A := fun st => (Ok a, st).

Definition bind {A B} (m : M S A) (k : A -> M S B) : M S B :=
  fun st =>
    match m st with
    | (Ok a, st') => k a st'
    | (Raise e, st') => (Raise e, st')
    | (Blocked, st') => (Blocked, st')
    end.

Definition raise {A} (e : exn) : M S A := fun st => (Raise e, st).

Definition blocked {A} : M S A := fun st => (Blocked, st).

(** [try: body  except ...: handler e], the handler re-raising what it does
    not catch. *)
Definition try_except {A} (body : M S A) (handler : exn -> M S A) : M S A :=
  fun st =>
    match body st with
    | (Raise e, st') => handler e st'
    | r => r
    end.

(** [try: body  finally: cleanup]. *)
Definition try_finally {A} (body : M S A) (cleanup : M S unit) : M S A :=
  fun st =>
    match body st with
    | (Ok a, st') =>
        match cleanup st' with
        | (Ok _, st'') => (Ok a, st'')
        | (Raise e, st'') => (Raise e, st'')
        | (Blocked, st'') => (Blocked, st'')
        end
    | (Raise e, st') =>
        match cleanup st' with
        | (Ok _, st'') => (Raise e, st'')
        | (Raise e', st'') => (Raise e', st'')
        | (Blocked, st'') => (Blocked, st'')
        end
    | (Blocked, st') => (Blocked, st')
    end.

End Monad.

Declare Scope py_scope.
Delimit Scope py_scope with py.
Notation "x <- m ;; k" := (bind m (fun x => k))
  (at level 100, m at next level, right associativity) : py_scope.
Notation "m ;; k" := (bind m (fun _ => k))
  (at level 100, right associativity) : py_scope.
Open Scope py_scope.

(** [for x in xs: body x]. *)
Fixpoint for_each {S A} (xs : list A) (body : A -> M S unit) : M S unit :=
  match xs with
  | [] => ret tt
  | x :: xs' => body x ;; for_each xs' body
  end.

(** * m720_button_remapper_safe.py *)

Module Remapper.
Import ecodes.

Section Program.

Context (lib : Library) (env : Env).

Abbreviation Py := (M State).

Definition print (s : string) : Py unit :=
  fun st => (Ok tt, add_out s st).

(** [subprocess.run(argv, check=check)]: the attempt is recorded in [runs]
    whatever comes of it; the result is the return code. *)
Definition subprocess_run (argv : list string) (check : bool) : Py Z :=
  fun st =>
    match subprocess env (length (runs st)) argv with
    | Exited rc =>
        if check && negb (rc =? 0)
        then (Raise {| e_class := CalledProcessError;
                       e_str := CalledProcessError_str lib argv rc |},
              add_run argv st)
        else (Ok rc, add_run argv st)
    | Raises e => (Raise e, add_run argv st)
    end.

(** [subprocess.Popen(argv, ...)]: the child is started and not waited
    for, so only a failure to start it shows. *)
Definition subprocess_Popen (argv : list string) : Py unit :=
  fun st =>
    match subprocess env (length (runs st)) argv with
    | Exited _ => (Ok tt, add_run argv st)
    | Raises e => (Raise e, add_run argv st)
    end.

Definition ydotool_page_up : list string :=
  ["ydotool"; "key"; "125:1"; "104:1"; "104:0"; "125:0"].
Definition ydotool_page_down : list string :=
  ["ydotool"; "key"; "125:1"; "109:1"; "109:0"; "125:0"].

(** [send_key_combo(keys)], lines 40-54. *)
Definition send_key_combo (keys : string) : Py bool :=
  fun st =>
    try_except
      ((if String.eqb keys "super+page_up" then
          subprocess_run ydotool_page_up true ;; ret tt
        else if String.eqb keys "super+page_down" then
          subprocess_run ydotool_page_down true ;; ret tt
        else ret tt) ;;
       ret true)
      (fun e =>
         match e_class e with
         | CalledProcessError =>
             print ("Error sending key combo: " +:+ e_str e) ;; ret false
         | FileNotFoundError =>
             print "ydotool not found. Please install it: sudo dnf install ydotool" ;;
             ret false
         | _ => raise e
         end)
      (add_call keys st).

(** The body of [for event in device.read()], lines 80-105. *)
Definition process_event (event : InputEvent) : Py unit :=
  if type event =? EV_KEY then
    if value event =? 1 then
      let button_name :=
        default ("BTN_" +:+ pretty (code event)) (BTN_str lib (code event)) in
      if bool_decide (code event ∈
           [BTN_SIDE; BTN_EXTRA; BTN_FORWARD; BTN_BACK; 275; 276; 277; 278])
      then
        print ("Button pressed: " +:+ button_name +:+
               " (code: " +:+ pretty (code event) +:+ ")") ;;
        if (code event =? BTN_SIDE) || (code event =? BTN_BACK) then
          print "  → Sending Super + Page Down" ;;
          send_key_combo "super+page_down" ;; ret tt
        else if (code event =? BTN_EXTRA) || (code event =? BTN_FORWARD) then
          print "  → Sending Super + Page Up" ;;
          send_key_combo "super+page_up" ;; ret tt
        else if bool_decide (code event ∈ [275; 276; 277; 278]) then
          if bool_decide (code event ∈ [275; 278]) then
            print "  → Sending Super + Page Down" ;;
            send_key_combo "super+page_down" ;; ret tt
          else
            print "  → Sending Super + Page Up" ;;
            send_key_combo "super+page_up" ;; ret tt
        else ret tt
      else ret tt
    else ret tt
  else ret tt.

(** The same body with the [elif event.code in [275, 276, 277, 278]]
    branch of lines 98-105 taken out. *)
Definition process_event_without_extra_branch (event : InputEvent) : Py unit :=
  if type event =? EV_KEY then
    if value event =? 1 then
      let button_name :=
        default ("BTN_" +:+ pretty (code event)) (BTN_str lib (code event)) in
      if bool_decide (code event ∈
           [BTN_SIDE; BTN_EXTRA; BTN_FORWARD; BTN_BACK; 275; 276; 277; 278])
      then
        print ("Button pressed: " +:+ button_name +:+
               " (code: " +:+ pretty (code event) +:+ ")") ;;
        if (code event =? BTN_SIDE) || (code event =? BTN_BACK) then
          print "  → Sending Super + Page Down" ;;
          send_key_combo "super+page_down" ;; ret tt
        else if (code event =? BTN_EXTRA) || (code event =? BTN_FORWARD) then
          print "  → Sending Super + Page Up" ;;
          send_key_combo "super+page_up" ;; ret tt
        else ret tt
      else ret tt
    else ret tt
  else ret tt.

(** [for event in device.read(): ...], lines 79-105: the generator yields
    [evs] and then stops or raises. *)
Definition drain (body : InputEvent -> Py unit)
    (evs : list InputEvent) (fin : ReadEnd) : Py unit :=
  for_each evs (fun event st => body event (add_seen event st)) ;;
  match fin with
  | Drained => ret tt
  | ReadRaises e => raise e
  end.

(** One turn of [while True], lines 75-109. *)
Definition turn (body : InputEvent -> Py unit) (s : Step) : Py unit :=
  match s with
  | SelectRaises e => raise e
  | Timeout => ret tt
  | Ready evs fin =>
      try_except (drain body evs fin)
        (fun e =>
           match e_class e with
           | BlockingIOError => ret tt
           | _ => raise e
           end)
  end.

(** [while True: ...] over the rounds the trace holds. *)
Fixpoint while_True (body : InputEvent -> Py unit) (trace : list Step) : Py unit :=
  match trace with
  | [] => blocked
  | s :: rest => turn body s ;; while_True body rest
  end.

Definition banner (device : InputDevice) : Py unit :=
  print ("Monitoring " +:+ name device +:+ " for button presses...") ;;
  print "Button mapping:" ;;
  print "- Side button (BTN_SIDE): Super + Page Down" ;;
  print "- Extra button (BTN_EXTRA): Super + Page Up" ;;
  print "- Forward button (BTN_FORWARD): Super + Page Up" ;;
  print "- Back button (BTN_BACK): Super + Page Down" ;;
  print (nl +:+ "NOTE: Normal mouse functions (click, move, scroll) will continue to work") ;;
  print "Press Ctrl+C to stop" ;;
  print (str_repeat "-" 50).

(** [selector = DefaultSelector(); selector.register(device, EVENT_READ)]
    and [selector.unregister(device); selector.close()]. *)
Definition selector_register : Py unit :=
  fun st => (Ok tt, set_selector true true st).
Definition selector_release : Py unit :=
  fun st => (Ok tt, set_selector false false st).

(** [handle_mouse_events(device)], lines 56-115. *)
Definition handle_mouse_events (device : InputDevice) (trace : list Step) : Py unit :=
  banner device ;;
  selector_register ;;
  try_finally
    (try_except (while_True process_event trace)
       (fun e =>
          match e_class e with
          | KeyboardInterrupt =>
              print (nl +:+ "Stopping mouse button remapper...")
          | _ => raise e
          end))
    selector_release.

(** [mouse_buttons], lines 29-32. *)
Definition mouse_buttons : list Z :=
  [BTN_LEFT; BTN_RIGHT; BTN_MIDDLE; BTN_SIDE; BTN_EXTRA; BTN_FORWARD; BTN_BACK].

(** [for device in devices: ...], lines 19-38. *)
Fixpoint find_in (devices : list InputDevice) : Py (option InputDevice) :=
  match devices with
  | [] => ret None
  | device :: rest =>
      if str_contains "M720" (name device) || str_contains "Logitech" (name device)
      then
        print ("Found potential M720 device: " +:+ name device) ;;
        print ("Device path: " +:+ path device) ;;
        match capabilities device !! EV_KEY with
        | Some keys =>
            if existsb (fun btn => bool_decide (btn ∈ keys)) mouse_buttons then
              print ("This device has mouse buttons: " +:+
                     repr_list (BTN_repr lib <$>
                       filter (fun btn => btn ∈ mouse_buttons) keys)) ;;
              ret (Some device)
            else find_in rest
        | None => find_in rest
        end
      else find_in rest
  end.

(** [[evdev.InputDevice(path) for path in evdev.list_devices()]]. *)
Definition open_all_devices : Py (list InputDevice) :=
  fun st => (Ok (list_devices env (enums st)), add_enum st).

(** [find_m720_device()], lines 15-38. *)
Definition find_m720_device : Py (option InputDevice) :=
  devices <- open_all_devices ;;
  find_in devices.

(** [setup_ydotool()], lines 117-129; [time.sleep(2)] leaves no trace. *)
Definition setup_ydotool : Py bool :=
  try_except
    (returncode <- subprocess_run ["pgrep"; "ydotoold"] false ;;
     (if negb (returncode =? 0) then
        print "Starting ydotool daemon..." ;;
        subprocess_Popen ["sudo"; "ydotoold"]
      else ret tt) ;;
     ret true)
    (fun e =>
       if is_Exception e then
         print ("Error setting up ydotool: " +:+ e_str e) ;; ret false
       else raise e).

(** [for i, dev in enumerate(devices): print(...)], lines 154-155. *)
Fixpoint print_devices (i : Z) (devices : list InputDevice) : Py unit :=
  match devices with
  | [] => ret tt
  | dev :: rest =>
      print (pretty i +:+ ": " +:+ name dev +:+ " (" +:+ path dev +:+ ")") ;;
      print_devices (i + 1) rest
  end.

(** [main()], lines 131-171; [trace] is what the selector and the device
    will deliver once the loop runs. *)
Definition main (trace : list Step) : Py unit :=
  print "M720 Mouse Button Remapper for Wayland (Non-Grabbing Version)" ;;
  print (str_repeat "=" 60) ;;
  if negb (geteuid env =? 0) then
    print "This script needs to access input devices." ;;
    print "Please run with sudo:" ;;
    print ("sudo python3 " +:+ argv0 env)
  else
    ready <- setup_ydotool ;;
    if negb ready then
      print "Failed to setup ydotool"
    else
      found <- find_m720_device ;;
      match found with
      | None =>
          print "M720 device not found!" ;;
          print (nl +:+ "Available devices:") ;;
          devices <- open_all_devices ;;
          print_devices 0 devices
      | Some device =>
          try_except
            (print (nl +:+ "Using device: " +:+ name device) ;;
             print "NOT grabbing device - normal mouse functions will continue to work" ;;
             handle_mouse_events device trace)
            (fun e =>
               match e_class e with
               | PermissionError =>
                   print "Permission denied accessing input device" ;;
                   print "Make sure to run with sudo"
               | KeyboardInterrupt =>
                   print (nl +:+ "Stopping mouse button remapper...")
               | _ => print ("Error: " +:+ e_str e)
               end)
      end.

End Program.
End Remapper.

(** * benchmarks/benchmark.py *)

Module Benchmark.

Section Program.

(** [BenchmarkResult], lines 27-38; Python's [float] is IEEE binary64. *)
Record BenchmarkResult := {
  approach : string;
  avg_latency_ms : float;
  min_latency_ms : float;
  max_latency_ms : float;
  std_latency_ms : float;
  cpu_usage_percent : float;
  memory_usage_mb : float;
  missed_events : Z;
  total_events : Z;
  reliability_percent : float
}.

(** What a timed measurement loop arrives at: the clock, the scheduler and
    [psutil] decide these numbers, the program only stores them.
    [n_events] is the number of turns the loop made before the deadline. *)
Record Samples := {
  mean_latency : float;
  least_latency : float;
  most_latency : float;
  stdev_latency : float;
  mean_cpu : float;
  mean_memory : float;
  n_events : Z
}.

(** The world outside the script: the effective user id, [os.path.exists],
    what the [n]-th spawned process does, and what the two measurement
    loops observe. *)
Record World := {
  geteuid : Z;
  path_exists : string -> bool;
  spawn : nat -> list string -> ProcOutcome;
  python_samples : Samples;
  kernel_samples : Samples
}.

(** What the script does, in order.  [Report rs] stands for the table, the
    recommendations and the JSON file [generate_report] produces from a
    non-empty [self.results], lines 235-295. *)
Inductive Effect :=
  | Print (s : string)
  | Spawn (argv : list string)
  | Terminate
  | Report (rs : list BenchmarkResult).

(** [sys.argv], the effects so far, and [self.results]. *)
Record State := {
  argv : list string;
  effects : list Effect;
  results : list BenchmarkResult
}.

Context (lib : Library) (world : World).

Abbreviation Py := (M State).

Definition emit (e : Effect) : Py unit :=
  fun st => (Ok tt, {| argv := argv st; effects := effects st ++ [e];
                       results := results st |}).

Definition print (s : string) : Py unit := emit (Print s).

Definition is_Spawn (e : Effect) : bool :=
  match e with Spawn _ => true | _ => false end.

(** How many processes have been spawned so far. *)
Definition spawned (st : State) : nat :=
  length (List.filter is_Spawn (effects st)).

(** [subprocess.run(argv, check=check)] and [subprocess.Popen(argv)]. *)
Definition subprocess_run (cmd : list string) (check : bool) : Py Z :=
  fun st =>
    match emit (Spawn cmd) st with
    | (_, st') =>
        match spawn world (spawned st) cmd with
        | Exited rc =>
            if check && negb (rc =? 0)
            then (Raise {| e_class := CalledProcessError;
                           e_str := CalledProcessError_str lib cmd rc |}, st')
            else (Ok rc, st')
        | Raises e => (Raise e, st')
        end
    end.

Definition subprocess_Popen (cmd : list string) : Py unit :=
  fun st =>
    match emit (Spawn cmd) st with
    | (_, st') =>
        match spawn world (spawned st) cmd with
        | Exited _ => (Ok tt, st')
        | Raises e => (Raise e, st')
        end
    end.

(** [(total - missed) / total * 100 if total > 0 else 0] with
    [missed = 0]. *)
Definition reliability (total : Z) : float :=
  if 0 <? total then 100%float else 0%float.

(** [benchmark_python_approach], lines 87-152.  [python_proc] is bound
    only when [Popen] returned, and only then is it terminated. *)
Definition benchmark_python_approach : Py (option BenchmarkResult) :=
  print "  Starting Python approach benchmark..." ;;
  fun st =>
    match subprocess_Popen ["sudo"; "python3"; "../m720_button_remapper_safe.py"] st with
    | (Ok _, st') =>
        let m := python_samples world in
        (_ <- emit Terminate ;;
         ret (Some {| approach := "Python Userspace";
                      avg_latency_ms := mean_latency m;
                      min_latency_ms := least_latency m;
                      max_latency_ms := most_latency m;
                      std_latency_ms := stdev_latency m;
                      cpu_usage_percent := mean_cpu m;
                      memory_usage_mb := mean_memory m;
                      missed_events := 0;
                      total_events := n_events m;
                      reliability_percent := reliability (n_events m) |})) st'
    | (Raise e, st') =>
        if is_Exception e then
          (print ("  Error benchmarking Python approach: " +:+ e_str e) ;;
           ret None) st'
        else (Raise e, st')
    | (Blocked, st') => (Blocked, st')
    end.

(** [benchmark_kernel_module], lines 154-207. *)
Definition benchmark_kernel_module : Py (option BenchmarkResult) :=
  print "  Starting kernel module benchmark..." ;;
  try_finally
    (try_except
       (subprocess_run
          ["sudo"; "insmod"; "../kernel-module/c-implementation/m720_remapper.ko"]
          true ;;
        let m := kernel_samples world in
        ret (Some {| approach := "Kernel Module";
                     avg_latency_ms := mean_latency m;
                     min_latency_ms := least_latency m;
                     max_latency_ms := most_latency m;
                     std_latency_ms := stdev_latency m;
                     cpu_usage_percent := 0.1%float;
                     memory_usage_mb := 0.05%float;
                     missed_events := 0;
                     total_events := n_events m;
                     reliability_percent := reliability (n_events m) |}))
       (fun e =>
          if is_Exception e then
            print ("  Error benchmarking kernel module: " +:+ e_str e) ;;
            ret None
          else raise e))
    (try_except
       (subprocess_run ["sudo"; "rmmod"; "m720_remapper"] false ;; ret tt)
       (fun _ => ret tt)).

(** [benchmark_hybrid_approach], lines 209-227, with
    [self.test_duration = 30] and [self.events_per_second = 10]. *)
Definition benchmark_hybrid_approach : Py (option BenchmarkResult) :=
  print "  Hybrid approach not yet implemented for benchmarking" ;;
  ret (Some {| approach := "Hybrid (Estimated)";
               avg_latency_ms := 0.15%float;
               min_latency_ms := 0.1%float;
               max_latency_ms := 0.3%float;
               std_latency_ms := 0.05%float;
               cpu_usage_percent := 0.5%float;
               memory_usage_mb := 2%float;
               missed_events := 0;
               total_events := 30 * 10;
               reliability_percent := 100%float |}).

(** [self.results.append(result)] under [if result:]. *)
Definition keep (result : option BenchmarkResult) : Py unit :=
  match result with
  | Some r =>
      fun st => (Ok tt, {| argv := argv st; effects := effects st;
                           results := results st ++ [r] |})
  | None => ret tt
  end.

(** [generate_report], lines 229-295. *)
Definition generate_report : Py unit :=
  fun st =>
    match results st with
    | [] => print "No benchmark results available" st
    | rs => emit (Report rs) st
    end.

(** [run_all_benchmarks], lines 46-73. *)
Definition run_all_benchmarks : Py unit :=
  print "M720 Button Remapper Performance Benchmarks" ;;
  print (str_repeat "=" 50) ;;
  (if path_exists world "../m720_button_remapper_safe.py" then
     print (nl +:+ "Testing Python userspace approach...") ;;
     result <- benchmark_python_approach ;;
     keep result
   else ret tt) ;;
  (if path_exists world "../kernel-module/c-implementation/m720_remapper.ko" then
     print (nl +:+ "Testing kernel module approach...") ;;
     result <- benchmark_kernel_module ;;
     keep result
   else ret tt) ;;
  (if path_exists world "../kernel-module/hybrid-approach/" then
     print (nl +:+ "Testing hybrid approach...") ;;
     result <- benchmark_hybrid_approach ;;
     keep result
   else ret tt) ;;
  generate_report.

Definition simulate_given (st : State) : bool :=
  bool_decide ("--simulate" ∈ argv st).

(** [main], lines 321-331; [PerformanceBenchmark()] starts from an empty
    [self.results]. *)
Definition main : Py unit :=
  (fun st =>
     if negb (geteuid world =? 0) && negb (simulate_given st) then
       (print "Note: Some benchmarks require root privileges for accurate measurement." ;;
        print "Run with --simulate for estimated results, or with sudo for real measurements." ;;
        fun st1 =>
          if negb (simulate_given st1) then
            (print "Re-running with simulation mode..." ;;
             fun st2 => (Ok tt, {| argv := argv st2 ++ ["--simulate"];
                                   effects := effects st2;
                                   results := results st2 |})) st1
          else (Ok tt, st1)) st
     else (Ok tt, st)) ;;
  (fun st => (Ok tt, {| argv := argv st; effects := effects st; results := [] |})) ;;
  run_all_benchmarks.

(** The script started with command line [args]. *)
Definition start (args : list string) : State :=
  {| argv := args; effects := []; results := [] |}.

End Program.
End Benchmark.

(** * Sample worlds *)

(** Concrete devices, libraries and operating systems to run the programs
    on. *)
Module Sample.
Import ecodes.

(** The mouse buttons' entries of [evdev.ecodes.BTN], every other code
    falling back on the default, and [CalledProcessError]'s message for a
    positive return code. *)
Definition lib : Library :=
  {| BTN_str := fun c =>
       if c =? BTN_SIDE then Some "BTN_SIDE"
       else if c =? BTN_EXTRA then Some "BTN_EXTRA"
       else if c =? BTN_FORWARD then Some "BTN_FORWARD"
       else if c =? BTN_BACK then Some "BTN_BACK"
       else None;
     BTN_repr := fun c => repr_str ("BTN_" +:+ pretty c);
     CalledProcessError_str := fun argv rc =>
       "Command '" +:+ repr_list (repr_str <$> argv) +:+
       "' returned non-zero exit status " +:+ pretty rc +:+ "." |}.

Definition mouse : InputDevice :=
  {| name := "Logitech M720 Triathlon";
     path := "/dev/input/event5";
     capabilities := {[ EV_KEY := [BTN_LEFT; BTN_RIGHT; BTN_MIDDLE; BTN_SIDE; BTN_EXTRA] ]} |}.

Definition keyboard : InputDevice :=
  {| name := "AT Translated Set 2 keyboard";
     path := "/dev/input/event1";
     capabilities := {[ EV_KEY := [30; 31; 32] ]} |}.

(** A Logitech receiver that reports no key capability at all. *)
Definition receiver : InputDevice :=
  {| name := "Logitech USB Receiver";
     path := "/dev/input/event3";
     capabilities := ∅ |}.

Definition no_such_file : exn :=
  {| e_class := FileNotFoundError;
     e_str := "[Errno 2] No such file or directory: 'ydotool'" |}.


Definition would_block : exn :=
  {| e_class := BlockingIOError;
     e_str := "[Errno 11] Resource temporarily unavailable" |}.


(** Root, every process exits with 0, and the mouse is plugged in. *)
Definition healthy : Env :=
  {| argv0 := "m720_button_remapper_safe.py";
     geteuid := 0;
     subprocess := fun _ _ => Exited 0;
     list_devices := fun _ => [keyboard; receiver; mouse] |}.

(** As [healthy], with no executable to be found. *)
Definition tool_absent : Env :=
  {| argv0 := "m720_button_remapper_safe.py";
     geteuid := 0;
     subprocess := fun _ _ => Raises no_such_file;
     list_devices := fun _ => [keyboard; receiver; mouse] |}.

(** As [healthy], with the mouse unplugged. *)
Definition no_mouse : Env :=
  {| argv0 := "m720_button_remapper_safe.py";
     geteuid := 0;
     subprocess := fun _ _ => Exited 0;
     list_devices := fun _ => [keyboard; receiver] |}.

(** As [healthy], started by an ordinary user. *)
Definition unprivileged : Env :=
  {| argv0 := "m720_button_remapper_safe.py";
     geteuid := 1000;
     subprocess := fun _ _ => Exited 0;
     list_devices := fun _ => [keyboard; receiver; mouse] |}.

Definition key (c v : Z) : InputEvent :=
  {| type := EV_KEY; code := c; value := v |}.

(** A machine on which all three approaches are present and every process
    exits with 0. *)
Definition bench_world : Benchmark.World :=
  {| Benchmark.geteuid := 1000;
     Benchmark.path_exists := fun _ => true;
     Benchmark.spawn := fun _ _ => Exited 0;
     Benchmark.python_samples :=
       {| Benchmark.mean_latency := 1.2%float;
          Benchmark.least_latency := 1.1%float;
          Benchmark.most_latency := 1.9%float;
          Benchmark.stdev_latency := 0.2%float;
          Benchmark.mean_cpu := 0.5%float;
          Benchmark.mean_memory := 20%float;
          Benchmark.n_events := 290 |};
     Benchmark.kernel_samples :=
       {| Benchmark.mean_latency := 0.15%float;
          Benchmark.least_latency := 0.1%float;
          Benchmark.most_latency := 0.2%float;
          Benchmark.stdev_latency := 0.03%float;
          Benchmark.mean_cpu := 0%float;
          Benchmark.mean_memory := 0%float;
          Benchmark.n_events := 299 |} |}.


(** A pointer motion: [EV_REL], [REL_X], five units. *)
Definition motion : InputEvent := {| type := 2; code := 0; value := 5 |}.

(** Root on a machine with none of the three approaches. *)
Definition bare_world : Benchmark.World :=
  {| Benchmark.geteuid := 0;
     Benchmark.path_exists := fun _ => false;
     Benchmark.spawn := fun _ _ => Exited 0;
     Benchmark.python_samples := Benchmark.python_samples bench_world;
     Benchmark.kernel_samples := Benchmark.kernel_samples bench_world |}.

End Sample.

(** * What the remapper does *)

Section RemapperFacts.
Import Remapper ecodes.

Context (lib : Library) (env : Env).

(** ** Vocabulary *)

(** The [ydotool] command line of a chord [send_key_combo] knows. *)
Definition argv_of (keys : string) : list string :=
  if String.eqb keys "super+page_up" then ydotool_page_up else ydotool_page_down.

(** The two chords [send_key_combo] knows. *)
Definition recognised (keys : string) : Prop :=
  keys = "super+page_up" ∨ keys = "super+page_down".

(** The chord a button code is bound to, as the banner of
    [handle_mouse_events] announces the mapping. *)
Definition combo_of_code (c : Z) : option string :=
  if bool_decide (c = BTN_SIDE ∨ c = BTN_BACK) then Some "super+page_down"
  else if bool_decide (c = BTN_EXTRA ∨ c = BTN_FORWARD) then Some "super+page_up"
  else None.

(** A button press: an [EV_KEY] event with value 1. *)
Definition is_press (ev : InputEvent) : bool :=
  (type ev =? EV_KEY) && (value ev =? 1).

(** The line the loop prints before it sends a chord. *)
Definition announce (keys : string) : string :=
  if String.eqb keys "super+page_up"
  then "  → Sending Super + Page Up"
  else "  → Sending Super + Page Down".

(** The line the loop prints for a mapped button. *)
Definition pressed_line (c : Z) : string :=
  "Button pressed: " +:+ default ("BTN_" +:+ pretty c) (BTN_str lib c) +:+
  " (code: " +:+ pretty c +:+ ")".

(** The chord an event triggers, if any. *)
Definition injection (ev : InputEvent) : option string :=
  if is_press ev then combo_of_code (code ev) else None.


(** The selector is as it was. *)
Definition same_selector (st st' : State) : Prop :=
  registered st' = registered st ∧ sel_open st' = sel_open st.


(** A computation is [prompt] when it never waits for input. *)
Definition prompt {A} (m : M State A) : Prop :=
  ∀ st, (m st).1 ≠ Blocked.

(** The loop body with its event just bound. *)
Definition bound_body (event : InputEvent) : M State unit :=
  fun st => process_event lib env event (add_seen event st).

(** A press of one of the four mapped buttons. *)
Definition mapped_press (ev : InputEvent) : bool :=
  (type ev =? EV_KEY) && (value ev =? 1) &&
  bool_decide (code ev ∈ [BTN_SIDE; BTN_EXTRA; BTN_FORWARD; BTN_BACK]).

(** The press of button [c]. *)
Definition press (c : Z) : InputEvent :=
  {| type := EV_KEY; code := c; value := 1 |}.

(** A round in which [select] itself raises. *)
Definition raising (s : Step) : Prop :=
  match s with
  | SelectRaises _ => True
  | _ => False
  end.

(** The injection tool is absent, or exits with a non-zero code. *)
Definition tool_fails (o : ProcOutcome) : Prop :=
  match o with
  | Exited rc => rc ≠ 0
  | Raises e => e_class e = FileNotFoundError
  end.

(** What [send_key_combo] prints when the tool fails. *)
Definition failure_report (argv : list string) (o : ProcOutcome) : string :=
  match o with
  | Exited rc => "Error sending key combo: " +:+ CalledProcessError_str lib argv rc
  | Raises _ => "ydotool not found. Please install it: sudo dnf install ydotool"
  end.

(** The tool raises nothing but what [send_key_combo] catches. *)
Definition no_crash (o : ProcOutcome) : Prop :=
  match o with
  | Exited _ => True
  | Raises e => e_class e = CalledProcessError ∨ e_class e = FileNotFoundError
  end.

(** A round that raises nothing, a would-block read apart. *)
Definition quiet (s : Step) : Prop :=
  match s with
  | Timeout => True
  | Ready _ Drained => True
  | Ready _ (ReadRaises e) => e_class e = BlockingIOError
  | SelectRaises _ => False
  end.

(** All events the rounds of a trace deliver. *)
Definition events_of (trace : list Step) : list InputEvent :=
  flat_map (λ s, match s with Ready evs _ => evs | _ => [] end) trace.

(** The history grew by exactly [evs] and their injections, and the
    selector is as it was. *)
Definition advanced (evs : list InputEvent) (st st' : State) : Prop :=
  seen st' = seen st ++ evs ∧
  calls st' = calls st ++ omap injection evs ∧
  runs st' = runs st ++ (argv_of <$> omap injection evs) ∧
  same_selector st st'.

(** *** Device lookup *)
(** [sub] occurs in [s]. *)
Definition contains (sub s : string) : Prop := ∃ a b, s = a +:+ sub +:+ b.

(** The display name contains one of the configured substrings. *)
Definition name_matches (d : InputDevice) : Prop :=
  contains "M720" (name d) ∨ contains "Logitech" (name d).

(** The [EV_KEY] capabilities hold one of the mouse button codes. *)
Definition has_mouse_button (d : InputDevice) : Prop :=
  ∃ keys btn,
    capabilities d !! EV_KEY = Some keys ∧ btn ∈ mouse_buttons ∧ btn ∈ keys.

(** The device [find_m720_device] looks for. *)
Definition is_m720 (d : InputDevice) : Prop :=
  name_matches d ∧ has_mouse_button d.

(** The two tests of [find_m720_device] as one boolean. *)
Definition qualifies (d : InputDevice) : bool :=
  (str_contains "M720" (name d) || str_contains "Logitech" (name d)) &&
  match capabilities d !! EV_KEY with
  | Some keys => existsb (λ btn, bool_decide (btn ∈ keys)) mouse_buttons
  | None => false
  end.

(** The lines [main] prints for the devices, numbered from [i]. *)
Definition device_lines_from (i : Z) (devices : list InputDevice) : list string :=
  imap (λ k d, pretty (i + Z.of_nat k) +:+ ": " +:+ name d +:+ " (" +:+ path d +:+ ")")
       devices.

(** Several lines printed in a row. *)
Definition add_outs (lines : list string) (st : State) : State :=
  foldl (λ acc line, add_out line acc) st lines.

(** ** Facts *)

Lemma send_key_combo_unknown keys st :
  keys ≠ "super+page_up" → keys ≠ "super+page_down" →
  send_key_combo lib env keys st = (Ok true, add_call keys st).
Proof.
  intros Hup Hdown. unfold send_key_combo.
  destruct (String.eqb_spec keys "super+page_up") as [|_]; [done|].
  destruct (String.eqb_spec keys "super+page_down") as [|_]; [done|].
  reflexivity.
Qed.

Lemma send_key_combo_known keys st :
  recognised keys →
  let argv := argv_of keys in
  let st1 := add_run argv (add_call keys st) in
  send_key_combo lib env keys st =
    match subprocess env (length (runs st)) argv with
    | Exited rc =>
        if rc =? 0 then (Ok true, st1)
        else (Ok false,
              add_out ("Error sending key combo: " +:+
                       CalledProcessError_str lib argv rc) st1)
    | Raises e =>
        match e_class e with
        | CalledProcessError =>
            (Ok false, add_out ("Error sending key combo: " +:+ e_str e) st1)
        | FileNotFoundError =>
            (Ok false,
             add_out "ydotool not found. Please install it: sudo dnf install ydotool" st1)
        | _ => (Raise e, st1)
        end
    end.
Proof.
  intros [-> | ->]; unfold send_key_combo, try_except, bind, subprocess_run;
    cbn -[Z.eqb];
    (destruct (subprocess env _ _) as [rc | e]; cbn -[Z.eqb];
     [ destruct (rc =? 0); reflexivity
     | destruct (e_class e); reflexivity ]).
Qed.

Lemma process_event_normal ev st :
  process_event lib env ev st =
    if is_press ev then
      match combo_of_code (code ev) with
      | Some keys =>
          (print (pressed_line (code ev)) ;;
           print (announce keys) ;;
           send_key_combo lib env keys ;; ret tt) st
      | None => (Ok tt, st)
      end
    else (Ok tt, st).
Proof.
  unfold process_event, is_press, combo_of_code, pressed_line.
  destruct (type ev =? EV_KEY); [|reflexivity].
  destruct (value ev =? 1); [|reflexivity]. cbn [andb].
  generalize (code ev) as c. intros c.
  unfold BTN_SIDE, BTN_EXTRA, BTN_FORWARD, BTN_BACK.
  destruct (decide (c = 275)) as [-> | H5]; [reflexivity|].
  destruct (decide (c = 278)) as [-> | H8]; [reflexivity|].
  destruct (decide (c = 276)) as [-> | H6]; [reflexivity|].
  destruct (decide (c = 277)) as [-> | H7]; [reflexivity|].
  rewrite (bool_decide_eq_false_2 (c ∈ _)) by (rewrite !elem_of_cons, elem_of_nil; lia).
  rewrite (bool_decide_eq_false_2 (c = 275 ∨ c = 278)) by tauto.
  rewrite (bool_decide_eq_false_2 (c = 276 ∨ c = 277)) by tauto.
  reflexivity.
Qed.



Lemma same_selector_refl st : same_selector st st.
Proof. done. Qed.

Lemma same_selector_trans st1 st2 st3 :
  same_selector st1 st2 → same_selector st2 st3 → same_selector st1 st3.
Proof. intros [? ?] [? ?]. split; congruence. Qed.

Lemma combo_of_code_recognised c keys :
  combo_of_code c = Some keys → recognised keys.
Proof.
  unfold combo_of_code, recognised.
  destruct (bool_decide _); [intros [= <-]; by right|].
  destruct (bool_decide _); [intros [= <-]; by left|done].
Qed.

(** What one pass through the loop body does to the state. *)
Lemma process_event_effects ev st :
  ∃ r st',
    process_event lib env ev (add_seen ev st) = (r, st') ∧
    r ≠ Blocked ∧
    seen st' = seen st ++ [ev] ∧
    calls st' = calls st ++ option_list (injection ev) ∧
    runs st' = runs st ++ (argv_of <$> option_list (injection ev)) ∧
    same_selector st st'.
Proof.
  rewrite process_event_normal. unfold injection.
  destruct (is_press ev).
  2:{ eexists _, _. split; [reflexivity|]. cbn. rewrite !app_nil_r. done. }
  destruct (combo_of_code (code ev)) as [keys|] eqn:Hk.
  2:{ eexists _, _. split; [reflexivity|]. cbn. rewrite !app_nil_r. done. }
  apply combo_of_code_recognised in Hk.
  unfold bind at 1. cbn [print]. unfold bind at 1. cbn [print].
  unfold bind at 1. rewrite send_key_combo_known by done. cbn zeta.
  destruct (subprocess env _ _) as [rc | e].
  - destruct (rc =? 0); eexists _, _; (split; [reflexivity|]); done.
  - destruct (e_class e); eexists _, _; (split; [reflexivity|]); done.
Qed.








Lemma prompt_ret {A} (a : A) : prompt (@ret State A a).
Proof. by intros st. Qed.

Lemma prompt_raise {A} e : prompt (@raise State A e).
Proof. by intros st. Qed.

Lemma prompt_print s : prompt (print s).
Proof. by intros st. Qed.

Lemma prompt_bind {A B} (m : M State A) (k : A → M State B) :
  prompt m → (∀ a, prompt (k a)) → prompt (bind m k).
Proof.
  intros Hm Hk st. specialize (Hm st). unfold bind.
  destruct (m st) as [[a | e |] st1]; cbn in *; try done. apply Hk.
Qed.

Lemma prompt_try_except {A} (m : M State A) (h : exn → M State A) :
  prompt m → (∀ e, prompt (h e)) → prompt (try_except m h).
Proof.
  intros Hm Hh st. specialize (Hm st). unfold try_except.
  destruct (m st) as [[a | e |] st1]; cbn in *; try done. apply Hh.
Qed.

Lemma prompt_for_each {A} (xs : list A) (body : A → M State unit) :
  (∀ x, prompt (body x)) → prompt (for_each xs body).
Proof.
  intros Hb. induction xs as [| x xs IH]; cbn [for_each].
  - apply prompt_ret.
  - apply prompt_bind; [apply Hb | intros _; apply IH].
Qed.


Lemma prompt_bound_body event : prompt (bound_body event).
Proof.
  intros st. unfold bound_body.
  by destruct (process_event_effects event st) as (r & st' & -> & ? & _).
Qed.


Lemma prompt_turn s : prompt (turn (process_event lib env) s).
Proof.
  destruct s as [| evs fin | e]; cbn [turn].
  - apply prompt_ret.
  - apply prompt_try_except.
    + unfold drain. apply prompt_bind.
      * apply (prompt_for_each evs bound_body), prompt_bound_body.
      * intros _. destruct fin; [apply prompt_ret | apply prompt_raise].
    + intros e. destruct (e_class e); (apply prompt_ret || apply prompt_raise).
  - apply prompt_raise.
Qed.



(** [handle_mouse_events] written out: the banner, the registration, the
    loop, and what the [except] and [finally] clauses do with its end. *)
Lemma handle_mouse_events_unfold device trace st :
  handle_mouse_events lib env device trace st =
    let st1 := set_selector true true (banner device st).2 in
    match while_True (process_event lib env) trace st1 with
    | (Ok _, st2) => (Ok tt, set_selector false false st2)
    | (Raise e, st2) =>
        match e_class e with
        | KeyboardInterrupt =>
            (Ok tt, set_selector false false
                      (add_out (nl +:+ "Stopping mouse button remapper...") st2))
        | _ => (Raise e, set_selector false false st2)
        end
    | (Blocked, st2) => (Blocked, st2)
    end.
Proof.
  unfold handle_mouse_events. cbn zeta.
  change (banner device st).2 with
    (snd (banner device st)).
  unfold bind at 1. change (banner device st) with (Ok tt, (banner device st).2).
  cbn iota. unfold bind at 1. cbn [selector_register].
  unfold try_finally, try_except.
  destruct (while_True _ _ _) as [[[] | e |] st2]; [reflexivity | | reflexivity].
  destruct (e_class e); reflexivity.
Qed.

Lemma injection_mapped_press ev :
  length (option_list (injection ev)) = if mapped_press ev then 1%nat else 0%nat.
Proof.
  unfold injection, mapped_press, is_press, combo_of_code.
  destruct ((type ev =? EV_KEY) && (value ev =? 1)); [|reflexivity].
  cbn [andb]. unfold BTN_SIDE, BTN_EXTRA, BTN_FORWARD, BTN_BACK.
  repeat case_bool_decide; try reflexivity; exfalso;
    rewrite ?elem_of_cons, ?elem_of_nil in *; tauto.
Qed.

Lemma length_omap_injection evs :
  length (omap injection evs) = length (List.filter mapped_press evs).
Proof.
  induction evs as [| ev evs IH]; [reflexivity|].
  pose proof (injection_mapped_press ev) as H.
  assert (omap injection (ev :: evs) =
          option_list (injection ev) ++ omap injection evs) as ->
    by (cbn; by destruct (injection ev)).
  rewrite length_app, H, IH. cbn [List.filter].
  by destruct (mapped_press ev).
Qed.



Lemma process_event_without_extra_branch_normal ev st :
  process_event_without_extra_branch lib env ev st =
    if is_press ev then
      match combo_of_code (code ev) with
      | Some keys =>
          (print (pressed_line (code ev)) ;;
           print (announce keys) ;;
           send_key_combo lib env keys ;; ret tt) st
      | None => (Ok tt, st)
      end
    else (Ok tt, st).
Proof.
  unfold process_event_without_extra_branch, is_press, combo_of_code, pressed_line.
  destruct (type ev =? EV_KEY); [|reflexivity].
  destruct (value ev =? 1); [|reflexivity]. cbn [andb].
  generalize (code ev) as c. intros c.
  unfold BTN_SIDE, BTN_EXTRA, BTN_FORWARD, BTN_BACK.
  destruct (decide (c = 275)) as [-> | H5]; [reflexivity|].
  destruct (decide (c = 278)) as [-> | H8]; [reflexivity|].
  destruct (decide (c = 276)) as [-> | H6]; [reflexivity|].
  destruct (decide (c = 277)) as [-> | H7]; [reflexivity|].
  rewrite (bool_decide_eq_false_2 (c ∈ _))
    by (rewrite !elem_of_cons, elem_of_nil; lia).
  rewrite (bool_decide_eq_false_2 (c = 275 ∨ c = 278)) by tauto.
  rewrite (bool_decide_eq_false_2 (c = 276 ∨ c = 277)) by tauto.
  reflexivity.
Qed.

(** C9.  The codes 275 to 278 are [BTN_SIDE], [BTN_EXTRA], [BTN_FORWARD]
    and [BTN_BACK], so the [elif event.code in [275, 276, 277, 278]] branch
    is never reached: the loop body with that branch taken out does the same
    on every event and state, and so does the whole loop. *)
Theorem extra_codes_branch_is_dead :
  [BTN_SIDE; BTN_EXTRA; BTN_FORWARD; BTN_BACK] = [275; 276; 277; 278] ∧
  (∀ event st,
     process_event lib env event st =
     process_event_without_extra_branch lib env event st) ∧
  (∀ trace st,
     while_True (process_event lib env) trace st =
     while_True (process_event_without_extra_branch lib env) trace st).
Proof.
  assert (∀ event st,
             process_event lib env event st =
             process_event_without_extra_branch lib env event st) as Hbody.
  { intros event st.
    by rewrite process_event_normal, process_event_without_extra_branch_normal. }
  split; [reflexivity|]. split; [exact Hbody|].
  assert (∀ evs st,
             for_each evs (λ event st0, process_event lib env event (add_seen event st0)) st =
             for_each evs (λ event st0,
               process_event_without_extra_branch lib env event (add_seen event st0)) st)
    as Hfor.
  { induction evs as [| ev evs IH]; intros st; [reflexivity|].
    cbn [for_each]. unfold bind. rewrite Hbody.
    destruct (process_event_without_extra_branch _ _ _ _) as [[[] | e |] st1];
      [apply IH | reflexivity | reflexivity]. }
  assert (∀ s st, turn (process_event lib env) s st =
                  turn (process_event_without_extra_branch lib env) s st) as Hturn.
  { intros [| evs fin | e] st; try reflexivity.
    cbn [turn]. unfold try_except, drain, bind. by rewrite Hfor. }
  induction trace as [| s trace IH]; intros st; [reflexivity|].
  cbn [while_True]. unfold bind. rewrite Hturn.
  destruct (turn _ _ _) as [[[] | e |] st1]; [apply IH | reflexivity | reflexivity].
Qed.

(** C10.  On any string but "super+page_up" and "super+page_down",
    [send_key_combo] runs no process, prints nothing and returns [True]. *)
Theorem unknown_combo_is_silent_success keys st :
  keys ≠ "super+page_up" → keys ≠ "super+page_down" →
  ∃ st',
    send_key_combo lib env keys st = (Ok true, st') ∧
    runs st' = runs st ∧ out st' = out st ∧ calls st' = calls st ++ [keys].
Proof.
  intros Hup Hdown. exists (add_call keys st).
  by rewrite send_key_combo_unknown.
Qed.

Lemma press_mapped c keys st :
  combo_of_code c = Some keys →
  ∃ r st',
    process_event lib env (press c) st = (r, st') ∧
    calls st' = calls st ++ [keys] ∧
    runs st' = runs st ++ [argv_of keys].
Proof.
  intros Hk. rewrite process_event_normal. cbn [is_press press type value code].
  change ((EV_KEY =? EV_KEY) && (1 =? 1)) with true. cbn iota. rewrite Hk.
  apply combo_of_code_recognised in Hk.
  unfold bind at 1. cbn [print]. unfold bind at 1. cbn [print].
  unfold bind at 1. rewrite send_key_combo_known by done. cbn zeta.
  destruct (subprocess env _ _) as [rc | e].
  - destruct (rc =? 0); eexists _, _; (split; [reflexivity|]); done.
  - destruct (e_class e); eexists _, _; (split; [reflexivity|]); done.
Qed.

(** C2.  A press of [BTN_SIDE] and a press of [BTN_BACK] both make exactly
    one injection, of super+page_down; a press of [BTN_EXTRA] and a press of
    [BTN_FORWARD] both make exactly one injection, of super+page_up. *)
Theorem aliases_share_one_action st :
  let after c := (process_event lib env (press c) st).2 in
  (calls (after BTN_SIDE) = calls st ++ ["super+page_down"] ∧
   calls (after BTN_BACK) = calls st ++ ["super+page_down"] ∧
   calls (after BTN_EXTRA) = calls st ++ ["super+page_up"] ∧
   calls (after BTN_FORWARD) = calls st ++ ["super+page_up"]) ∧
  (runs (after BTN_SIDE) = runs st ++ [ydotool_page_down] ∧
   runs (after BTN_BACK) = runs st ++ [ydotool_page_down] ∧
   runs (after BTN_EXTRA) = runs st ++ [ydotool_page_up] ∧
   runs (after BTN_FORWARD) = runs st ++ [ydotool_page_up]).
Proof.
  cbn zeta.
  destruct (press_mapped BTN_SIDE "super+page_down" st eq_refl)
    as (r1 & s1 & -> & Hc1 & Hr1).
  destruct (press_mapped BTN_BACK "super+page_down" st eq_refl)
    as (r2 & s2 & -> & Hc2 & Hr2).
  destruct (press_mapped BTN_EXTRA "super+page_up" st eq_refl)
    as (r3 & s3 & -> & Hc3 & Hr3).
  destruct (press_mapped BTN_FORWARD "super+page_up" st eq_refl)
    as (r4 & s4 & -> & Hc4 & Hr4).
  done.
Qed.

(** C3, amended.  A press ([EV_KEY], value 1) of a code that is not mapped
    makes no injection and prints nothing: the state is left as it was. *)
Theorem unmapped_press_is_ignored_silently ev st :
  type ev = EV_KEY → value ev = 1 →
  code ev ∉ [BTN_SIDE; BTN_EXTRA; BTN_FORWARD; BTN_BACK] →
  process_event lib env ev st = (Ok tt, st).
Proof.
  intros Ht Hv Hc. rewrite process_event_normal.
  unfold is_press, combo_of_code. rewrite Ht, Hv. cbn [Z.eqb andb].
  change ((EV_KEY =? EV_KEY) && (1 =? 1)) with true. cbn iota.
  rewrite !elem_of_cons, elem_of_nil in Hc.
  rewrite !bool_decide_eq_false_2 by tauto. reflexivity.
Qed.


(** The loop leaves only by an exception, and it does leave when the
    selector or the device raises one: no trace that holds a raising round
    ends [Blocked]. *)
Lemma while_True_never_returns trace st :
  ∀ a, (while_True (process_event lib env) trace st).1 ≠ Ok a.
Proof.
  revert st. induction trace as [| s trace IH]; intros st a; [done|].
  cbn [while_True]. unfold bind.
  destruct (turn _ _ _) as [[[] | e |] st1]; [apply IH | done | done].
Qed.

Lemma turn_raising s st :
  raising s → ∃ e, (turn (process_event lib env) s st).1 = Raise e.
Proof. destruct s as [| evs fin | e]; cbn [raising]; [done | done | by eexists]. Qed.

Lemma while_True_exits trace st :
  Exists raising trace →
  ∃ e, (while_True (process_event lib env) trace st).1 = Raise e.
Proof.
  intros Hex. revert st. induction Hex as [s trace Hs | s trace _ IH]; intros st.
  - cbn [while_True]. unfold bind.
    destruct (turn_raising s st Hs) as [e He].
    destruct (turn _ _ _) as [[[] | e' |] st1]; cbn in *; try done. by eexists.
  - cbn [while_True]. unfold bind.
    pose proof (prompt_turn s st) as Hp.
    destruct (turn _ _ _) as [[[] | e' |] st1]; cbn in *; [apply IH | by eexists | done].
Qed.

Lemma handle_mouse_events_exits device trace st :
  Exists raising trace →
  (handle_mouse_events lib env device trace st).1 ≠ Blocked.
Proof.
  intros Hex. rewrite handle_mouse_events_unfold. cbn zeta.
  destruct (while_True_exits trace
              (set_selector true true (banner device st).2) Hex) as [e He].
  destruct (while_True _ _ _) as [[[] | e' |] st2]; cbn in *; try done.
  by destruct (e_class e').
Qed.

(** C7.  A [BlockingIOError] raised by [device.read()] ends the batch as
    the end of the generator does: the round is the same round, an empty
    would-block read changes nothing, and the loop goes on with the next
    [select] exactly as it would after a drained batch. *)
Theorem would_block_ends_the_batch e :
  e_class e = BlockingIOError →
  (∀ body evs st,
     turn body (Ready evs (ReadRaises e)) st = turn body (Ready evs Drained) st) ∧
  (∀ st, turn (process_event lib env) (Ready [] (ReadRaises e)) st = (Ok tt, st)) ∧
  (∀ evs rest st,
     while_True (process_event lib env) (Ready evs (ReadRaises e) :: rest) st =
     while_True (process_event lib env) (Ready evs Drained :: rest) st) ∧
  (∀ device before evs rest st,
     handle_mouse_events lib env device (before ++ Ready evs (ReadRaises e) :: rest) st =
     handle_mouse_events lib env device (before ++ Ready evs Drained :: rest) st).
Proof.
  intros He.
  assert (∀ body evs st,
            turn body (Ready evs (ReadRaises e)) st =
            turn body (Ready evs Drained) st) as Hturn.
  { intros body evs st. cbn [turn]. unfold try_except, drain, bind.
    destruct (for_each _ _ _) as [[[] | e' |] st1]; try reflexivity.
    unfold raise, ret. by rewrite He. }
  assert (∀ evs rest st,
            while_True (process_event lib env) (Ready evs (ReadRaises e) :: rest) st =
            while_True (process_event lib env) (Ready evs Drained :: rest) st) as Hloop.
  { intros evs rest st. cbn [while_True]. unfold bind. by rewrite Hturn. }
  split; [exact Hturn|]. split; [intros st; by rewrite Hturn|].
  split; [exact Hloop|].
  - intros device before evs rest st. rewrite !handle_mouse_events_unfold. cbn zeta.
    generalize (set_selector true true (banner device st).2) as st1.
    assert (∀ st1,
              while_True (process_event lib env)
                (before ++ Ready evs (ReadRaises e) :: rest) st1 =
              while_True (process_event lib env)
                (before ++ Ready evs Drained :: rest) st1) as Hw;
      [|by intros st1; rewrite Hw].
    induction before as [| s before IH]; intros st1; [apply Hloop|].
    cbn [app while_True]. unfold bind.
    destruct (turn _ _ _) as [[[] | e' |] st2]; [apply IH | done | done].
Qed.

Lemma advanced_nil st : advanced [] st st.
Proof. unfold advanced. cbn. by rewrite !app_nil_r. Qed.

Lemma advanced_app e1 e2 st1 st2 st3 :
  advanced e1 st1 st2 → advanced e2 st2 st3 → advanced (e1 ++ e2) st1 st3.
Proof.
  intros (Hs1 & Hc1 & Hr1 & Hx1) (Hs2 & Hc2 & Hr2 & Hx2). unfold advanced.
  rewrite Hs2, Hs1, Hc2, Hc1, Hr2, Hr1, omap_app, fmap_app, !app_assoc.
  split_and!; try done. by eapply same_selector_trans.
Qed.

Lemma tool_fails_no_crash o : tool_fails o → no_crash o.
Proof. destruct o; cbn; [done | by right]. Qed.

Section NoCrash.
Hypothesis Hsafe : ∀ n argv, no_crash (subprocess env n argv).

Lemma bound_body_survives ev st :
  ∃ st', bound_body ev st = (Ok tt, st') ∧ advanced [ev] st st'.
Proof.
  unfold bound_body.
  destruct (process_event_effects ev st)
    as (r & st' & Heq & _ & Hs & Hc & Hr & Hsel).
  exists st'. split.
  - assert ((process_event lib env ev (add_seen ev st)).1 = Ok tt) as Hok.
    { rewrite process_event_normal.
      destruct (is_press ev); [|done].
      destruct (combo_of_code (code ev)) as [keys|] eqn:Hk; [|done].
      apply combo_of_code_recognised in Hk.
      unfold bind at 1. cbn [print]. unfold bind at 1. cbn [print].
      unfold bind at 1. rewrite send_key_combo_known by done. cbn zeta.
      match goal with |- context [subprocess env ?n ?a] =>
        pose proof (Hsafe n a) as Hn; destruct (subprocess env n a) as [rc | e] end.
      + by destruct (rc =? 0).
      + cbn in Hn. by destruct Hn as [-> | ->]. }
    rewrite Heq in Hok |- *. cbn in Hok. by rewrite Hok.
  - unfold advanced. cbn. rewrite Hc, Hr.
    split_and!; try done; by destruct (injection ev).
Qed.

Lemma for_each_survives evs st :
  ∃ st', for_each evs bound_body st = (Ok tt, st') ∧ advanced evs st st'.
Proof.
  revert st. induction evs as [| ev evs IH]; intros st.
  - exists st. split; [done | apply advanced_nil].
  - cbn [for_each]. unfold bind.
    destruct (bound_body_survives ev st) as (st1 & -> & H1).
    destruct (IH st1) as (st2 & -> & H2).
    exists st2. split; [done|]. apply (advanced_app [ev] evs _ _ _ H1 H2).
Qed.

Lemma turn_survives s st :
  quiet s →
  ∃ st', turn (process_event lib env) s st = (Ok tt, st') ∧
         advanced (events_of [s]) st st'.
Proof.
  destruct s as [| evs fin | e]; cbn [quiet]; [| | done].
  - intros _. exists st. split; [done | apply advanced_nil].
  - intros Hq. cbn [turn events_of flat_map]. rewrite app_nil_r.
    unfold try_except, drain, bind.
    destruct (for_each_survives evs st) as (st1 & Heq & H1).
    unfold bound_body in Heq. rewrite Heq.
    exists st1. split; [|done].
    destruct fin as [| e]; [done|]. cbn. by rewrite Hq.
Qed.

Lemma while_True_survives trace st :
  Forall quiet trace →
  ∃ st', while_True (process_event lib env) trace st = (Blocked, st') ∧
         advanced (events_of trace) st st'.
Proof.
  intros Hq. revert st. induction Hq as [| s trace Hs _ IH]; intros st.
  - exists st. split; [done | apply advanced_nil].
  - cbn [while_True]. unfold bind.
    destruct (turn_survives s st Hs) as (st1 & -> & H1).
    destruct (IH st1) as (st2 & -> & H2).
    exists st2. split; [done|].
    change (events_of (s :: trace)) with
      (match s with Ready evs _ => evs | _ => [] end ++ events_of trace).
    cbn [events_of flat_map] in H1. rewrite app_nil_r in H1.
    by eapply advanced_app.
Qed.

Lemma handle_mouse_events_survives device trace st :
  Forall quiet trace →
  ∃ st', handle_mouse_events lib env device trace st = (Blocked, st') ∧
         seen st' = seen st ++ events_of trace ∧
         calls st' = calls st ++ omap injection (events_of trace) ∧
         runs st' = runs st ++ (argv_of <$> omap injection (events_of trace)) ∧
         registered st' = true ∧ sel_open st' = true.
Proof.
  intros Hq. rewrite handle_mouse_events_unfold. cbn zeta.
  destruct (while_True_survives trace
              (set_selector true true (banner device st).2) Hq)
    as (st2 & -> & Hs & Hc & Hr & Hreg & Hopen).
  exists st2. split; [done|].
  split_and!; [exact Hs | exact Hc | exact Hr | exact Hreg | exact Hopen].
Qed.
End NoCrash.

(** C4.  When the tool is absent ([FileNotFoundError]) or exits with a
    non-zero code ([CalledProcessError]), [send_key_combo] on a chord it
    knows prints a report and returns [False].  And in a world where every
    injection fails so, the loop does not stop: over rounds that raise
    nothing it processes every event, attempts an injection for every mapped
    press, and is still waiting at the end. *)
Theorem injection_failure_is_not_fatal :
  (∀ keys st,
     recognised keys →
     tool_fails (subprocess env (length (runs st)) (argv_of keys)) →
     send_key_combo lib env keys st =
       (Ok false,
        add_out (failure_report (argv_of keys)
                   (subprocess env (length (runs st)) (argv_of keys)))
          (add_run (argv_of keys) (add_call keys st)))) ∧
  ((∀ n argv, tool_fails (subprocess env n argv)) →
   ∀ device trace st,
     Forall quiet trace →
     ∃ st',
       handle_mouse_events lib env device trace st = (Blocked, st') ∧
       seen st' = seen st ++ events_of trace ∧
       length (calls st') =
         (length (calls st) + length (List.filter mapped_press (events_of trace)))%nat ∧
       length (runs st') =
         (length (runs st) + length (List.filter mapped_press (events_of trace)))%nat).
Proof.
  split.
  - intros keys st Hk Hf. rewrite send_key_combo_known by done. cbn zeta.
    destruct (subprocess env _ _) as [rc | e]; cbn in *.
    + by destruct (Z.eqb_spec rc 0).
    + by rewrite Hf.
  - intros Hall device trace st Hq.
    destruct (handle_mouse_events_survives
                (λ n argv, tool_fails_no_crash _ (Hall n argv)) device trace st Hq)
      as (st' & Heq & Hs & Hc & Hr & _).
    exists st'. split_and!; try done.
    + by rewrite Hc, length_app, length_omap_injection.
    + by rewrite Hr, length_app, length_fmap, length_omap_injection.
Qed.

Lemma prefix_spec s t : String.prefix s t = true ↔ ∃ b, t = s +:+ b.
Proof.
  revert t. induction s as [| c s IH]; intros t.
  - split; [intros _; by exists t | by destruct t].
  - destruct t as [| c' t]; cbn.
    + split; [done | by intros [b Hb]].
    + destruct (ascii_dec c c') as [-> | Hne].
      * rewrite IH. split; intros [b Hb]; exists b; [by rewrite Hb | by injection Hb].
      * split; [done | intros [b Hb]; by injection Hb].
Qed.

Lemma str_contains_spec sub s : str_contains sub s = true ↔ contains sub s.
Proof.
  unfold contains. induction s as [| c s IH]; cbn [str_contains].
  - rewrite orb_false_r, prefix_spec. split.
    + intros [b Hb]. by exists "", b.
    + intros (a & b & Hab). destruct a; [by exists b | done].
  - rewrite orb_true_iff, prefix_spec, IH. split.
    + intros [[b Hb] | (a & b & Hab)].
      * by exists "", b.
      * exists (String c a), b. cbn. by rewrite Hab.
    + intros (a & b & Hab). destruct a as [| c' a]; cbn in Hab.
      * left. by exists b.
      * right. exists a, b. by injection Hab.
Qed.

Lemma qualifies_spec d : qualifies d = true ↔ is_m720 d.
Proof.
  unfold qualifies, is_m720, name_matches, has_mouse_button.
  rewrite andb_true_iff, orb_true_iff, !str_contains_spec.
  apply and_iff_compat_l.
  destruct (capabilities d !! EV_KEY) as [keys|].
  - rewrite existsb_exists. split.
    + intros (btn & Hin & Hk). exists keys, btn.
      apply bool_decide_eq_true in Hk. by rewrite list_elem_of_In.
    + intros (keys' & btn & [= <-] & Hin & Hk). exists btn.
      rewrite bool_decide_eq_true. by rewrite <- list_elem_of_In.
  - split; [done | by intros (? & ? & ? & _)].
Qed.

Lemma find_in_spec devices st :
  ∃ st', find_in lib devices st = (Ok (List.find qualifies devices), st') ∧
         runs st' = runs st ∧ calls st' = calls st ∧ seen st' = seen st ∧
         enums st' = enums st ∧ same_selector st st'.
Proof.
  revert st. induction devices as [| d devices IH]; intros st.
  - by exists st.
  - cbn [find_in List.find]. unfold qualifies at 1.
    destruct (str_contains "M720" (name d) || str_contains "Logitech" (name d));
      cbn [andb]; [|apply IH].
    unfold bind at 1. cbn [print]. unfold bind at 1. cbn [print].
    destruct (capabilities d !! EV_KEY) as [keys|].
    + destruct (existsb _ mouse_buttons).
      * eexists. split; [reflexivity|]. done.
      * destruct (IH (add_out ("Device path: " +:+ path d)
                       (add_out ("Found potential M720 device: " +:+ name d) st)))
          as (st' & -> & ?). by exists st'.
    + destruct (IH (add_out ("Device path: " +:+ path d)
                     (add_out ("Found potential M720 device: " +:+ name d) st)))
        as (st' & -> & ?). by exists st'.
Qed.

Lemma find_first {A} (p : A → bool) (l : list A) :
  match List.find p l with
  | Some x => ∃ pre post, l = pre ++ x :: post ∧ p x = true ∧
                          Forall (λ y, p y = false) pre
  | None => Forall (λ y, p y = false) l
  end.
Proof.
  induction l as [| a l IH]; cbn; [done|].
  destruct (p a) eqn:Ha.
  - by exists [], l.
  - destruct (List.find p l) as [x|].
    + destruct IH as (pre & post & -> & Hx & Hpre).
      exists (a :: pre), post. split_and!; try done. by constructor.
    + by constructor.
Qed.

Lemma print_devices_spec devices i st :
  print_devices i devices st = (Ok tt, add_outs (device_lines_from i devices) st).
Proof.
  revert i st. induction devices as [| d devices IH]; intros i st; [done|].
  cbn [print_devices]. unfold bind. cbn [print]. rewrite IH.
  unfold device_lines_from. cbn [imap add_outs foldl].
  rewrite Z.add_0_r. f_equal. unfold add_outs. f_equal.
  apply imap_ext. intros k x _. cbn. do 2 f_equal. lia.
Qed.

Lemma out_add_outs lines st : out (add_outs lines st) = out st ++ lines.
Proof.
  revert st. induction lines as [| l lines IH]; intros st; cbn.
  - by rewrite app_nil_r.
  - unfold add_outs in IH. rewrite IH. cbn. by rewrite <- app_assoc.
Qed.

Lemma frame_add_outs lines st :
  runs (add_outs lines st) = runs st ∧ calls (add_outs lines st) = calls st ∧
  seen (add_outs lines st) = seen st ∧ same_selector st (add_outs lines st).
Proof.
  revert st. induction lines as [| l lines IH]; intros st; [done|].
  cbn. destruct (IH (add_out l st)) as (? & ? & ? & ? & ?). done.
Qed.

(** C5.  [find_m720_device] returns the first device of the enumeration
    whose name contains "M720" or "Logitech" and whose [EV_KEY] capabilities
    hold a mouse button code, and [None] when there is none.  In that case
    [main], run by root with [ydotool] set up, prints "M720 device not
    found!", the list of all devices of a second enumeration, and returns
    without entering the loop. *)
Theorem find_m720_device_first_match :
  (∀ st, ∃ st',
     find_m720_device lib env st =
       (Ok (List.find qualifies (list_devices env (enums st))), st') ∧
     match List.find qualifies (list_devices env (enums st)) with
     | Some d =>
         ∃ pre post,
           list_devices env (enums st) = pre ++ d :: post ∧
           is_m720 d ∧ Forall (λ x, ¬ is_m720 x) pre
     | None => Forall (λ x, ¬ is_m720 x) (list_devices env (enums st))
     end) ∧
  (∀ trace st st1,
     geteuid env = 0 →
     setup_ydotool lib env
       (add_out (str_repeat "=" 60)
          (add_out "M720 Mouse Button Remapper for Wayland (Non-Grabbing Version)" st))
       = (Ok true, st1) →
     Forall (λ x, ¬ is_m720 x) (list_devices env (enums st1)) →
     ∃ st2 st3,
       find_m720_device lib env st1 = (Ok None, st2) ∧
       main lib env trace st = (Ok tt, st3) ∧
       out st3 = out st2 ++
         ["M720 device not found!"; nl +:+ "Available devices:"] ++
         device_lines_from 0 (list_devices env (enums st2)) ∧
       runs st3 = runs st2 ∧ calls st3 = calls st2 ∧ seen st3 = seen st2 ∧
       registered st3 = registered st2 ∧ sel_open st3 = sel_open st2).
Proof.
  assert (∀ l, Forall (λ y, qualifies y = false) l → Forall (λ x, ¬ is_m720 x) l) as Hno.
  { intros l Hl. eapply Forall_impl; [exact Hl|]. intros x Hx Hm.
    apply qualifies_spec in Hm. congruence. }
  split.
  - intros st. unfold find_m720_device, bind, open_all_devices.
    destruct (find_in_spec (list_devices env (enums st)) (add_enum st))
      as (st' & -> & _).
    exists st'. split; [done|].
    pose proof (find_first qualifies (list_devices env (enums st))) as Hf.
    destruct (List.find _ _) as [d|].
    + destruct Hf as (pre & post & Hl & Hd & Hpre).
      exists pre, post. split_and!; [done | by apply qualifies_spec | by apply Hno].
    + by apply Hno.
  - intros trace st st1 Hroot Hsetup Hnone.
    assert (List.find qualifies (list_devices env (enums st1)) = None) as Hfind.
    { pose proof (find_first qualifies (list_devices env (enums st1))) as Hf.
      destruct (List.find _ _) as [d|]; [|done].
      destruct Hf as (pre & post & Hl & Hd & _).
      rewrite Hl in Hnone. apply Forall_app in Hnone as [_ Hnone].
      apply Forall_cons in Hnone as [Hnd _]. by apply qualifies_spec in Hd. }
    destruct (find_in_spec (list_devices env (enums st1)) (add_enum st1))
      as (st2 & Hfi & Hr & Hc & Hs & He & Hsel).
    rewrite Hfind in Hfi.
    exists st2.
    eexists. split; [by unfold find_m720_device, bind, open_all_devices; rewrite Hfi|].
    unfold main. unfold bind at 1. cbn [print]. unfold bind at 1. cbn [print].
    rewrite Hroot. cbn [Z.eqb negb]. unfold bind at 1. rewrite Hsetup. cbn [negb].
    unfold bind at 1.
    assert (find_m720_device lib env st1 = (Ok None, st2)) as ->
      by (by unfold find_m720_device, bind, open_all_devices; rewrite Hfi).
    unfold bind at 1. cbn [print]. unfold bind at 1. cbn [print].
    unfold bind at 1. cbn [open_all_devices]. rewrite print_devices_spec.
    split; [reflexivity|].
    rewrite out_add_outs. cbn [out add_enum add_out enums].
    destruct (frame_add_outs
                (device_lines_from 0 (list_devices env (enums st2)))
                (add_enum (add_out (nl +:+ "Available devices:")
                   (add_out "M720 device not found!" st2))))
      as (-> & -> & -> & -> & ->).
    cbn. rewrite <- !app_assoc. done.
Qed.

End RemapperFacts.

(** * What the benchmark script does *)

Section BenchmarkFacts.
Import Benchmark.

Context (lib : Library).

(** ** Vocabulary *)

(** The world [w] seen by a process of effective user id [uid]. *)
Definition as_user (uid : Z) (w : World) : World :=
  {| geteuid := uid; path_exists := path_exists w; spawn := spawn w;
     python_samples := python_samples w; kernel_samples := kernel_samples w |}.

(** The three lines [main] prints to a user who is not root and gave no
    [--simulate]. *)
Definition notice : list Effect :=
  [Print "Note: Some benchmarks require root privileges for accurate measurement.";
   Print "Run with --simulate for estimated results, or with sudo for real measurements.";
   Print "Re-running with simulation mode..."].

(** Two states that differ by printed lines [pre] at the front of the
    first one's effects, and possibly in [sys.argv]. *)
Definition ahead (pre : list Effect) (st1 st2 : State) : Prop :=
  effects st1 = pre ++ effects st2 ∧ results st1 = results st2.

(** A computation that does not look at [sys.argv] nor at lines printed
    earlier. *)
Definition blind {A} (pre : list Effect) (w : World) (m : M State A) : Prop :=
  ∀ st1 st2, ahead pre st1 st2 →
    (m st1).1 = (m st2).1 ∧ ahead pre (m st1).2 (m st2).2.

(** ** Facts *)

Section Blind.
Context (w : World) (pre : list Effect).
Hypothesis Hpre : List.filter is_Spawn pre = [].

Lemma spawned_ahead st1 st2 : ahead pre st1 st2 → spawned st1 = spawned st2.
Proof.
  intros [He _]. unfold spawned. by rewrite He, List.filter_app, Hpre.
Qed.

Lemma blind_ret {A} (a : A) : blind pre w (ret a).
Proof. by intros st1 st2 H. Qed.

Lemma blind_raise {A} e : blind pre w (@raise State A e).
Proof. by intros st1 st2 H. Qed.

Lemma blind_bind {A B} (m : M State A) (k : A → M State B) :
  blind pre w m → (∀ a, blind pre w (k a)) → blind pre w (bind m k).
Proof.
  intros Hm Hk st1 st2 H. destruct (Hm st1 st2 H) as [Hr Hs]. unfold bind.
  destruct (m st1) as [r1 s1], (m st2) as [r2 s2]. cbn in Hr, Hs. subst r2.
  destruct r1 as [a | e |]; [by apply Hk | done | done].
Qed.

Lemma blind_try_except {A} (m : M State A) (h : exn → M State A) :
  blind pre w m → (∀ e, blind pre w (h e)) → blind pre w (try_except m h).
Proof.
  intros Hm Hh st1 st2 H. destruct (Hm st1 st2 H) as [Hr Hs]. unfold try_except.
  destruct (m st1) as [r1 s1], (m st2) as [r2 s2]. cbn in Hr, Hs. subst r2.
  destruct r1 as [a | e |]; [done | by apply Hh | done].
Qed.

Lemma blind_try_finally {A} (m : M State A) (c : M State unit) :
  blind pre w m → blind pre w c → blind pre w (try_finally m c).
Proof.
  intros Hm Hc st1 st2 H. destruct (Hm st1 st2 H) as [Hr Hs]. unfold try_finally.
  destruct (m st1) as [r1 s1], (m st2) as [r2 s2]. cbn in Hr, Hs. subst r2.
  destruct r1 as [a | e |]; [| | done].
  - destruct (Hc s1 s2 Hs) as [Hr' Hs'].
    destruct (c s1) as [r1' s1'], (c s2) as [r2' s2']. cbn in Hr', Hs'. subst r2'.
    by destruct r1'.
  - destruct (Hc s1 s2 Hs) as [Hr' Hs'].
    destruct (c s1) as [r1' s1'], (c s2) as [r2' s2']. cbn in Hr', Hs'. subst r2'.
    by destruct r1'.
Qed.

Lemma blind_emit e : blind pre w (emit e).
Proof.
  intros st1 st2 [He Hr]. split; [done|]. split; cbn; [|done].
  by rewrite He, app_assoc.
Qed.

Lemma blind_print s : blind pre w (print s).
Proof. apply blind_emit. Qed.

Lemma blind_keep r : blind pre w (keep r).
Proof.
  destruct r as [r|]; [|apply blind_ret].
  intros st1 st2 [He Hr]. split; [done|]. split; cbn; [done|]. by rewrite Hr.
Qed.

Lemma blind_subprocess_run cmd check : blind pre w (subprocess_run lib w cmd check).
Proof.
  intros st1 st2 H. pose proof (spawned_ahead _ _ H) as Hn.
  destruct (blind_emit (Spawn cmd) st1 st2 H) as [_ Hs].
  unfold subprocess_run. rewrite Hn. cbn in Hs |- *.
  destruct (spawn w _ _) as [rc | e]; [|done].
  by destruct (check && negb (rc =? 0)).
Qed.

Lemma blind_subprocess_Popen cmd : blind pre w (subprocess_Popen w cmd).
Proof.
  intros st1 st2 H. pose proof (spawned_ahead _ _ H) as Hn.
  destruct (blind_emit (Spawn cmd) st1 st2 H) as [_ Hs].
  unfold subprocess_Popen. rewrite Hn. cbn in Hs |- *.
  by destruct (spawn w _ _) as [rc | e].
Qed.

Lemma blind_benchmark_python_approach : blind pre w (benchmark_python_approach w).
Proof.
  unfold benchmark_python_approach.
  apply blind_bind; [apply blind_print | intros _].
  intros st1 st2 H.
  destruct (blind_subprocess_Popen
              ["sudo"; "python3"; "../m720_button_remapper_safe.py"] st1 st2 H)
    as [Hr Hs].
  destruct (subprocess_Popen _ _ st1) as [r1 s1],
           (subprocess_Popen _ _ st2) as [r2 s2]. cbn in Hr, Hs. subst r2.
  destruct r1 as [[] | e |]; [| | done].
  - by apply (blind_bind (emit Terminate) _ (blind_emit _) (λ _, blind_ret _)).
  - destruct (is_Exception e); [|done].
    by apply (blind_bind (print _) _ (blind_print _) (λ _, blind_ret _)).
Qed.

Lemma blind_benchmark_kernel_module : blind pre w (benchmark_kernel_module lib w).
Proof.
  unfold benchmark_kernel_module.
  apply blind_bind; [apply blind_print | intros _].
  apply blind_try_finally.
  - apply blind_try_except.
    + apply blind_bind; [apply blind_subprocess_run | intros _; apply blind_ret].
    + intros e. destruct (is_Exception e); [|apply blind_raise].
      apply blind_bind; [apply blind_print | intros _; apply blind_ret].
  - apply blind_try_except; [|intros _; apply blind_ret].
    apply blind_bind; [apply blind_subprocess_run | intros _; apply blind_ret].
Qed.

Lemma blind_benchmark_hybrid_approach : blind pre w benchmark_hybrid_approach.
Proof.
  unfold benchmark_hybrid_approach.
  apply blind_bind; [apply blind_print | intros _; apply blind_ret].
Qed.

Lemma blind_generate_report : blind pre w generate_report.
Proof.
  intros st1 st2 H. unfold generate_report. rewrite (proj2 H).
  destruct (results st2); by apply blind_emit.
Qed.

Lemma blind_run_all_benchmarks : blind pre w (run_all_benchmarks lib w).
Proof.
  unfold run_all_benchmarks.
  repeat (apply blind_bind; [try apply blind_print | intros _]);
    try apply blind_generate_report.
  - destruct (path_exists w _); [|apply blind_ret].
    apply blind_bind; [apply blind_print | intros _].
    apply blind_bind; [apply blind_benchmark_python_approach | apply blind_keep].
  - destruct (path_exists w _); [|apply blind_ret].
    apply blind_bind; [apply blind_print | intros _].
    apply blind_bind; [apply blind_benchmark_kernel_module | apply blind_keep].
  - destruct (path_exists w _); [|apply blind_ret].
    apply blind_bind; [apply blind_print | intros _].
    apply blind_bind; [apply blind_benchmark_hybrid_approach | apply blind_keep].
Qed.
End Blind.

Lemma run_all_benchmarks_as_user uid w st :
  run_all_benchmarks lib (as_user uid w) st = run_all_benchmarks lib w st.
Proof. reflexivity. Qed.

(** [main] written out: the notice, the fresh [self.results], the run. *)
Lemma main_unfold w st :
  main lib w st =
    run_all_benchmarks lib w
      (if negb (geteuid w =? 0) && negb (bool_decide ("--simulate" ∈ argv st))
       then {| argv := argv st ++ ["--simulate"];
               effects := effects st ++ notice; results := [] |}
       else {| argv := argv st; effects := effects st; results := [] |}).
Proof.
  unfold main, bind, simulate_given, print, emit. cbn [argv effects results].
  destruct (negb (geteuid w =? 0)); cbn [andb]; [|reflexivity].
  destruct (bool_decide ("--simulate" ∈ argv st)); cbn [negb]; [reflexivity|].
  unfold notice. by rewrite <- !app_assoc.
Qed.

(** C8.  The [--simulate] switch does not change what the benchmark does:
    whoever runs it and whatever the command line, [main] ends as a run by
    root with no argument ends, with the same results and the same effects
    (the same processes spawned through [sudo], the same report), but for
    the three-line notice printed first to a user who is not root and gave
    no [--simulate]. *)
Theorem simulate_flag_only_silences_the_notice w uid args :
  (main lib (as_user uid w) (start args)).1 =
    (main lib (as_user 0 w) (start [])).1 ∧
  results (main lib (as_user uid w) (start args)).2 =
    results (main lib (as_user 0 w) (start [])).2 ∧
  effects (main lib (as_user uid w) (start args)).2 =
    (if negb (uid =? 0) && negb (bool_decide ("--simulate" ∈ args))
     then notice else []) ++
    effects (main lib (as_user 0 w) (start [])).2.
Proof.
  rewrite !main_unfold, !run_all_benchmarks_as_user.
  cbn [geteuid as_user argv effects start Z.eqb negb andb].
  destruct (negb (uid =? 0) && negb (bool_decide ("--simulate" ∈ args))).
  - match goal with |- (run_all_benchmarks lib w ?s1).1 = (run_all_benchmarks lib w ?s2).1 ∧ _ =>
      destruct (blind_run_all_benchmarks w notice eq_refl s1 s2) as [Hr [He Hs]];
        [by split|] end.
    by rewrite Hr, He, Hs.
  - match goal with |- (run_all_benchmarks lib w ?s1).1 = (run_all_benchmarks lib w ?s2).1 ∧ _ =>
      destruct (blind_run_all_benchmarks w [] eq_refl s1 s2) as [Hr [He Hs]];
        [by split|] end.
    by rewrite Hr, He, Hs.
Qed.

End BenchmarkFacts.

(** * The theorems at work on the sample worlds *)

Section Witnesses.
Import Remapper ecodes Sample.

(** C3, as the claim states it: a press of the left button, which is not
    mapped, is an [EV_KEY] event with value 1 and an unmapped code, it
    triggers no injection, and it leaves no log entry at all, where the
    claim expects exactly one. *)
Lemma unmapped_press_leaves_no_log_entry :
  type (key BTN_LEFT 1) = EV_KEY ∧ value (key BTN_LEFT 1) = 1 ∧
  (code (key BTN_LEFT 1) ∉ [BTN_SIDE; BTN_EXTRA; BTN_FORWARD; BTN_BACK]) ∧
  calls (process_event lib healthy (key BTN_LEFT 1) initial).2 = [] ∧
  out (process_event lib healthy (key BTN_LEFT 1) initial).2 = [] ∧
  length (out (process_event lib healthy (key BTN_LEFT 1) initial).2) ≠ 1%nat.
Proof.
  split_and!; try reflexivity; try discriminate.
  rewrite !elem_of_cons, elem_of_nil. unfold BTN_LEFT, BTN_SIDE, BTN_EXTRA,
    BTN_FORWARD, BTN_BACK, key, code. lia.
Qed.

Lemma unmapped_press_is_ignored_silently_witness :
  type (key BTN_LEFT 1) = EV_KEY ∧ value (key BTN_LEFT 1) = 1 ∧
  process_event lib healthy (key BTN_LEFT 1) initial = (Ok tt, initial).
Proof.
  split_and!; [reflexivity | reflexivity |].
  apply (unmapped_press_is_ignored_silently lib healthy (key BTN_LEFT 1) initial);
    [reflexivity | reflexivity |].
  rewrite !elem_of_cons, elem_of_nil. unfold BTN_LEFT, BTN_SIDE, BTN_EXTRA,
    BTN_FORWARD, BTN_BACK, key, code. lia.
Defined.

Lemma unknown_combo_is_silent_success_witness :
  ∃ st',
    send_key_combo lib tool_absent "ctrl+alt+t" initial = (Ok true, st') ∧
    runs st' = runs initial ∧ out st' = out initial ∧
    calls st' = calls initial ++ ["ctrl+alt+t"].
Proof.
  apply (unknown_combo_is_silent_success lib tool_absent "ctrl+alt+t" initial);
    discriminate.
Defined.


Lemma would_block_ends_the_batch_witness :
  e_class would_block = BlockingIOError ∧
  turn (process_event lib healthy) (Ready [] (ReadRaises would_block)) initial
    = (Ok tt, initial).
Proof.
  split; [reflexivity|].
  apply (would_block_ends_the_batch lib healthy would_block eq_refl).
Defined.

Lemma injection_failure_is_not_fatal_witness :
  send_key_combo lib tool_absent "super+page_up" initial =
    (Ok false,
     add_out "ydotool not found. Please install it: sudo dnf install ydotool"
       (add_run ydotool_page_up (add_call "super+page_up" initial))) ∧
  ∃ st',
    handle_mouse_events lib tool_absent mouse
      [Ready [key BTN_SIDE 1; key BTN_SIDE 0; key BTN_EXTRA 1] Drained; Timeout]
      initial = (Blocked, st') ∧
    length (calls st') = 2%nat.
Proof.
  pose proof (injection_failure_is_not_fatal lib tool_absent) as [Hone Hloop].
  split.
  - apply (Hone "super+page_up" initial); [by left | reflexivity].
  - destruct (Hloop (λ _ _, eq_refl) mouse
                [Ready [key BTN_SIDE 1; key BTN_SIDE 0; key BTN_EXTRA 1] Drained; Timeout]
                initial) as (st' & Heq & _ & Hc & _).
    + repeat constructor.
    + exists st'. split; [exact Heq | exact Hc].
Defined.

Lemma find_m720_device_first_match_witness :
  (find_m720_device lib healthy initial).1 = Ok (Some mouse) ∧
  (find_m720_device lib no_mouse initial).1 = Ok None ∧
  (main lib no_mouse [] initial).1 = Ok tt.
Proof.
  pose proof (find_m720_device_first_match lib healthy) as [Hfind _].
  pose proof (find_m720_device_first_match lib no_mouse) as [Hnone Hmain].
  split; [|split].
  - destruct (Hfind initial) as (st' & -> & _). reflexivity.
  - destruct (Hnone initial) as (st' & -> & _). reflexivity.
  - destruct (Hnone initial) as (_ & _ & Hall). cbn in Hall.
    edestruct (Hmain [] initial) as (st2 & st3 & _ & Hm & _);
      [reflexivity | reflexivity | exact Hall |].
    by rewrite Hm.
Defined.

End Witnesses.

(** * More on the remapper *)

Section RemapperMore.
Import Remapper ecodes.

Context (lib : Library) (env : Env).

(** ** Vocabulary *)

Definition is_Timeout (s : Step) : bool :=
  match s with Timeout => true | _ => false end.

(** A trace with its timed-out rounds taken out. *)
Definition without_timeouts (trace : list Step) : list Step :=
  List.filter (λ s, negb (is_Timeout s)) trace.

Definition farewell : string := nl +:+ "Stopping mouse button remapper...".

(** The state [main] is in after its two title lines. *)
Definition titled (st : State) : State :=
  add_out (str_repeat "=" 60)
    (add_out "M720 Mouse Button Remapper for Wayland (Non-Grabbing Version)" st).

(** [pgrep] tells that no [ydotoold] runs. *)
Definition daemon_missing (o : ProcOutcome) : bool :=
  match o with
  | Exited rc => negb (rc =? 0)
  | Raises _ => false
  end.

(** ** Facts *)

(** X1.  The loop reacts to mapped presses only: any other event, whatever
    its type, code and value (a pointer motion, a wheel turn, a click of the
    left button, a release), leaves the state exactly as it was. *)
Theorem only_mapped_presses_have_an_effect ev st :
  mapped_press ev = false →
  process_event lib env ev st = (Ok tt, st).
Proof.
  intros Hm. rewrite process_event_normal.
  pose proof (injection_mapped_press ev) as Hi. rewrite Hm in Hi.
  unfold injection in Hi.
  destruct (is_press ev); [|done].
  by destruct (combo_of_code (code ev)).
Qed.

Lemma while_True_without_timeouts body trace st :
  while_True body trace st = while_True body (without_timeouts trace) st.
Proof.
  revert st. induction trace as [| s trace IH]; intros st; [done|].
  destruct s as [| evs fin | e]; cbn [without_timeouts List.filter is_Timeout negb].
  - cbn [while_True]. unfold bind. cbn. apply IH.
  - cbn [while_True]. unfold bind.
    destruct (turn body _ st) as [[[] | e |] st1]; [apply IH | done | done].
  - done.
Qed.

(** X2.  A [select] that times out changes nothing: the loop run on a trace
    and on the same trace without its timed-out rounds ends alike, in the
    same state. *)
Theorem timeouts_change_nothing device trace st :
  handle_mouse_events lib env device trace st =
  handle_mouse_events lib env device (without_timeouts trace) st.
Proof.
  rewrite !handle_mouse_events_unfold. cbn zeta.
  by rewrite while_True_without_timeouts.
Qed.

(** X3.  [handle_mouse_events] never lets a [KeyboardInterrupt] out, and it
    returns only after one: when it returns, the last line printed is the
    farewell; when it raises, the exception is not a [KeyboardInterrupt]. *)
Theorem interrupt_is_the_only_way_to_return device trace st :
  match (handle_mouse_events lib env device trace st).1 with
  | Ok _ => last (out (handle_mouse_events lib env device trace st).2) = Some farewell
  | Raise e => e_class e ≠ KeyboardInterrupt
  | Blocked => True
  end.
Proof.
  rewrite handle_mouse_events_unfold. cbn zeta.
  pose proof (while_True_never_returns lib env trace
                (set_selector true true (banner device st).2)) as Hnr.
  destruct (while_True _ _ _) as [[[] | e |] st2]; cbn in *; [by destruct (Hnr tt) | | done].
  destruct (e_class e) eqn:He; cbn; rewrite ?He; try done.
  apply last_snoc.
Qed.

(** X4.  With no crash of the tool (it exits, or fails in one of the two
    ways [send_key_combo] catches) and rounds that raise nothing, the chords
    go out in the order of the presses, one [ydotool] run per mapped press:
    the [k]-th injection is the chord of the [k]-th mapped press. *)
Theorem chords_follow_presses_in_order device trace st :
  (∀ n argv, no_crash (subprocess env n argv)) →
  Forall quiet trace →
  calls (handle_mouse_events lib env device trace st).2 =
    calls st ++ omap injection (events_of trace) ∧
  runs (handle_mouse_events lib env device trace st).2 =
    runs st ++ (argv_of <$> omap injection (events_of trace)).
Proof.
  intros Hsafe Hq.
  destruct (handle_mouse_events_survives lib env Hsafe device trace st Hq)
    as (st' & -> & _ & Hc & Hr & _).
  done.
Qed.

Lemma setup_ydotool_cases st :
  setup_ydotool lib env st =
    let st1 := add_run ["pgrep"; "ydotoold"] st in
    let failed e s :=
      if is_Exception e
      then (Ok false, add_out ("Error setting up ydotool: " +:+ e_str e) s)
      else (Raise e, s) in
    match subprocess env (length (runs st)) ["pgrep"; "ydotoold"] with
    | Exited rc =>
        if rc =? 0 then (Ok true, st1)
        else
          let st2 := add_run ["sudo"; "ydotoold"]
                       (add_out "Starting ydotool daemon..." st1) in
          match subprocess env (S (length (runs st))) ["sudo"; "ydotoold"] with
          | Exited _ => (Ok true, st2)
          | Raises e => failed e st2
          end
    | Raises e => failed e st1
    end.
Proof.
  unfold setup_ydotool, try_except, bind, subprocess_run, subprocess_Popen.
  cbn [andb]. destruct (subprocess env (length (runs st)) _) as [rc | e]; cbn.
  - destruct (rc =? 0); cbn; [done|].
    rewrite length_app. cbn [length]. rewrite Nat.add_1_r.
    destruct (subprocess env (S _) _) as [rc' | e]; cbn; [done|].
    by destruct (is_Exception e).
  - by destruct (is_Exception e).
Qed.

(** X5.  [setup_ydotool] asks [pgrep] once and starts [sudo ydotoold] when,
    and only when, [pgrep] exits with a non-zero code.  It never waits, lets
    nothing but a [KeyboardInterrupt] out, returns [False] only after it
    printed the error, and when it returns [True] it printed at most the
    line that announces the start of the daemon. *)
Theorem setup_ydotool_starts_a_missing_daemon st :
  runs (setup_ydotool lib env st).2 =
    runs st ++ ["pgrep"; "ydotoold"] ::
      (if daemon_missing (subprocess env (length (runs st)) ["pgrep"; "ydotoold"])
       then [["sudo"; "ydotoold"]] else []) ∧
  match (setup_ydotool lib env st).1 with
  | Ok true =>
      out (setup_ydotool lib env st).2 =
        out st ++
          (if daemon_missing (subprocess env (length (runs st)) ["pgrep"; "ydotoold"])
           then ["Starting ydotool daemon..."] else [])
  | Ok false =>
      ∃ e, is_Exception e = true ∧
           last (out (setup_ydotool lib env st).2) =
             Some ("Error setting up ydotool: " +:+ e_str e)
  | Raise e => e_class e = KeyboardInterrupt
  | Blocked => False
  end.
Proof.
  assert (∀ e, is_Exception e = false → e_class e = KeyboardInterrupt) as Hki.
  { intros e He. unfold is_Exception in He.
    apply bool_decide_eq_false in He. by destruct (decide (e_class e = KeyboardInterrupt)). }
  rewrite setup_ydotool_cases. cbn zeta.
  destruct (subprocess env (length (runs st)) _) as [rc | e]; cbn [daemon_missing].
  - destruct (rc =? 0); cbn.
    + by rewrite app_nil_r.
    + destruct (subprocess env (S _) _) as [rc' | e]; cbn.
      * by rewrite <- app_assoc.
      * destruct (is_Exception e) eqn:He; cbn.
        -- split; [by rewrite <- app_assoc|]. exists e. split; [done|]. apply last_snoc.
        -- split; [by rewrite <- app_assoc|]. by apply Hki.
  - destruct (is_Exception e) eqn:He; cbn.
    + split; [done|]. exists e. split; [done|]. apply last_snoc.
    + split; [done|]. by apply Hki.
Qed.

Lemma main_without_root trace st :
  geteuid env ≠ 0 →
  main lib env trace st =
    (Ok tt,
     add_out ("sudo python3 " +:+ argv0 env)
       (add_out "Please run with sudo:"
          (add_out "This script needs to access input devices." (titled st)))).
Proof.
  intros Hne. unfold main, bind, print. cbn.
  destruct (Z.eqb_spec (geteuid env) 0) as [|_]; [done|]. by cbn.
Qed.

(** X6.  Run by a user who is not root, [main] prints its title and three
    lines of advice with the script's own name, and stops there: it starts
    no process, looks at no device and never enters the loop. *)
Theorem main_without_root_only_advises trace st :
  geteuid env ≠ 0 →
  main lib env trace st =
    (Ok tt,
     add_out ("sudo python3 " +:+ argv0 env)
       (add_out "Please run with sudo:"
          (add_out "This script needs to access input devices." (titled st)))) ∧
  runs (main lib env trace st).2 = runs st ∧
  enums (main lib env trace st).2 = enums st ∧
  seen (main lib env trace st).2 = seen st.
Proof. intros Hne. by rewrite main_without_root. Qed.








End RemapperMore.

(** * More on the benchmark script *)

Section BenchmarkMore.
Import Benchmark.

Context (lib : Library) (w : World).

(** ** Vocabulary *)

(** The state after the effects [es]. *)
Definition emits (es : list Effect) (st : State) : State :=
  {| argv := argv st; effects := effects st ++ es; results := results st |}.

Definition insmod : list string :=
  ["sudo"; "insmod"; "../kernel-module/c-implementation/m720_remapper.ko"].
Definition rmmod : list string := ["sudo"; "rmmod"; "m720_remapper"].
Definition launch : list string :=
  ["sudo"; "python3"; "../m720_button_remapper_safe.py"].

(** The three approaches, in the order [run_all_benchmarks] tries them. *)
Definition approaches : list string :=
  ["Python Userspace"; "Kernel Module"; "Hybrid (Estimated)"].

(** A benchmark that leaves [self.results] alone and returns, if anything,
    a record of the approach [label]. *)
Definition measures (label : string) (m : M State (option BenchmarkResult)) : Prop :=
  ∀ st, results (m st).2 = results st ∧
        match (m st).1 with
        | Ok (Some r) => approach r = label
        | _ => True
        end.

(** One stage of [run_all_benchmarks]: an approach that is present is
    announced and measured, and its record kept. *)
Definition stage (present : bool) (title : string)
    (m : M State (option BenchmarkResult)) : M State unit :=
  if present then print title ;; result <- m ;; keep result else ret tt.

(** ** Facts *)

Lemma spawned_emits es st :
  spawned (emits es st) = (spawned st + length (List.filter is_Spawn es))%nat.
Proof. unfold spawned, emits. cbn. by rewrite List.filter_app, length_app. Qed.

Lemma emits_emits a b st : emits b (emits a st) = emits (a ++ b) st.
Proof. unfold emits. cbn. by rewrite app_assoc. Qed.

Lemma print_emits s st : print s st = (Ok tt, emits [Print s] st).
Proof. reflexivity. Qed.

Lemma subprocess_run_emits cmd check st :
  subprocess_run lib w cmd check st =
    (match spawn w (spawned st) cmd with
     | Exited rc =>
         if check && negb (rc =? 0)
         then Raise {| e_class := CalledProcessError;
                       e_str := CalledProcessError_str lib cmd rc |}
         else Ok rc
     | Raises e => Raise e
     end, emits [Spawn cmd] st).
Proof.
  unfold subprocess_run. cbn [emit].
  destruct (spawn w _ _) as [rc | e]; [|done]. by destruct (check && negb (rc =? 0)).
Qed.

Lemma subprocess_Popen_emits cmd st :
  subprocess_Popen w cmd st =
    (match spawn w (spawned st) cmd with
     | Exited _ => Ok tt
     | Raises e => Raise e
     end, emits [Spawn cmd] st).
Proof. unfold subprocess_Popen. cbn [emit]. by destruct (spawn w _ _). Qed.

(** Unloading the module never fails, whatever [rmmod] does. *)
Lemma unload_emits st :
  try_except (subprocess_run lib w rmmod false ;; ret tt) (λ _, ret tt) st =
    (Ok tt, emits [Spawn rmmod] st).
Proof.
  unfold try_except, bind. rewrite subprocess_run_emits. cbn [andb].
  by destruct (spawn w _ _).
Qed.

(** [benchmark_kernel_module] written out by what [insmod] does. *)
Lemma benchmark_kernel_module_cases st :
  ∃ r mid,
    benchmark_kernel_module lib w st =
      (r, emits ([Print "  Starting kernel module benchmark..."; Spawn insmod]
                 ++ mid ++ [Spawn rmmod]) st) ∧
    List.filter is_Spawn mid = [] ∧
    match spawn w (spawned st) insmod with
    | Exited rc =>
        if rc =? 0
        then mid = [] ∧ ∃ rec, r = Ok (Some rec) ∧ approach rec = "Kernel Module"
        else r = Ok None ∧ length mid = 1%nat
    | Raises e =>
        if is_Exception e then r = Ok None ∧ length mid = 1%nat
        else r = Raise e ∧ mid = []
    end.
Proof.
  unfold benchmark_kernel_module. fold insmod rmmod.
  unfold bind at 1. rewrite print_emits.
  unfold try_finally. unfold try_except at 1. unfold bind at 1.
  rewrite subprocess_run_emits, emits_emits.
  rewrite spawned_emits. cbn [List.filter is_Spawn length andb]. rewrite Nat.add_0_r.
  destruct (spawn w (spawned st) insmod) as [rc | e].
  - destruct (rc =? 0); cbn [negb ret].
    + rewrite unload_emits, emits_emits.
      eexists _, []. split; [reflexivity|]. split; [done|]. split; [done|]. by eexists.
    + set (x := is_Exception _). vm_compute in x. subst x. cbn iota.
      unfold bind at 1. rewrite print_emits, emits_emits. cbn [ret].
      rewrite unload_emits, emits_emits.
      eexists _, [_]. split; [by rewrite <- !app_assoc|]. done.
  - destruct (is_Exception e).
    + unfold bind at 1. rewrite print_emits, emits_emits. cbn [ret].
      rewrite unload_emits, emits_emits.
      eexists _, [_]. split; [by rewrite <- !app_assoc|]. done.
    + cbn [raise]. rewrite unload_emits, emits_emits.
      eexists _, []. split; [reflexivity|]. done.
Qed.


(** [benchmark_python_approach] written out by what starting the script
    does. *)
Lemma benchmark_python_approach_cases st :
  ∃ r tail,
    benchmark_python_approach w st =
      (r, emits ([Print "  Starting Python approach benchmark..."; Spawn launch]
                 ++ tail) st) ∧
    match spawn w (spawned st) launch with
    | Exited _ =>
        tail = [Terminate] ∧ ∃ rec, r = Ok (Some rec) ∧ approach rec = "Python Userspace"
    | Raises e =>
        if is_Exception e
        then r = Ok None ∧
             tail = [Print ("  Error benchmarking Python approach: " +:+ e_str e)]
        else r = Raise e ∧ tail = []
    end.
Proof.
  unfold benchmark_python_approach. fold launch.
  unfold bind at 1. rewrite print_emits, subprocess_Popen_emits, emits_emits.
  rewrite spawned_emits. cbn [List.filter is_Spawn length]. rewrite Nat.add_0_r.
  destruct (spawn w (spawned st) launch) as [rc | e].
  - unfold bind, ret. cbn [emit]. eexists _, [Terminate].
    split; [unfold emits; cbn; by rewrite <- !app_assoc|].
    split; [done | by eexists].
  - destruct (is_Exception e).
    + unfold bind, ret. rewrite print_emits, emits_emits.
      eexists _, [_]. split; [by rewrite <- !app_assoc | done].
    + eexists _, []. split; [by rewrite app_nil_r | done].
Qed.


Lemma measures_python : measures "Python Userspace" (benchmark_python_approach w).
Proof.
  intros st. destruct (benchmark_python_approach_cases st) as (r & tail & -> & Hcase).
  split; [done|]. cbn [fst].
  destruct (spawn w (spawned st) launch) as [rc | e].
  - by destruct Hcase as (_ & rec & -> & ?).
  - by destruct (is_Exception e); destruct Hcase as [-> _].
Qed.

Lemma measures_kernel : measures "Kernel Module" (benchmark_kernel_module lib w).
Proof.
  intros st. destruct (benchmark_kernel_module_cases st) as (r & mid & -> & _ & Hcase).
  split; [done|]. cbn [fst].
  destruct (spawn w (spawned st) insmod) as [rc | e].
  - destruct (rc =? 0); [by destruct Hcase as (_ & rec & -> & ?) | by destruct Hcase as [-> _]].
  - by destruct (is_Exception e); destruct Hcase as [-> _].
Qed.

Lemma measures_hybrid : measures "Hybrid (Estimated)" benchmark_hybrid_approach.
Proof. by intros st. Qed.

(** One stage of [run_all_benchmarks] adds at most one record, of its own
    approach. *)
Lemma stage_results present title label m st :
  measures label m →
  ∃ added,
    results (stage present title m st).2 = results st ++ added ∧
    (added = [] ∨ approach <$> added = [label]).
Proof.
  intros Hm. unfold stage.
  destruct present; [|exists []; split; [by rewrite app_nil_r | by left]].
  unfold bind at 1. rewrite print_emits. unfold bind at 1.
  destruct (Hm (emits [Print title] st)) as [Hres Hrec].
  destruct (m _) as [[[rec|] | e |] st1]; cbn in *.
  - exists [rec]. split; [by rewrite Hres|]. right.
    change ([approach rec] = [label]). by f_equal.
  - exists []. split; [by rewrite app_nil_r | by left].
  - exists []. split; [by rewrite app_nil_r | by left].
  - exists []. split; [by rewrite app_nil_r | by left].
Qed.

Lemma generate_report_results st : results (generate_report st).2 = results st.
Proof. unfold generate_report. by destruct (results st) eqn:E. Qed.

Lemma run_all_benchmarks_stages :
  run_all_benchmarks lib w =
    (print "M720 Button Remapper Performance Benchmarks" ;;
     print (str_repeat "=" 50) ;;
     stage (path_exists w "../m720_button_remapper_safe.py")
       (nl +:+ "Testing Python userspace approach...")
       (benchmark_python_approach w) ;;
     stage (path_exists w "../kernel-module/c-implementation/m720_remapper.ko")
       (nl +:+ "Testing kernel module approach...")
       (benchmark_kernel_module lib w) ;;
     stage (path_exists w "../kernel-module/hybrid-approach/")
       (nl +:+ "Testing hybrid approach...")
       benchmark_hybrid_approach ;;
     generate_report).
Proof. reflexivity. Qed.

(** The records the three stages leave. *)
Lemma run_all_benchmarks_results st :
  ∃ a1 a2 a3,
    results (run_all_benchmarks lib w st).2 = results st ++ a1 ++ a2 ++ a3 ∧
    (a1 = [] ∨ approach <$> a1 = ["Python Userspace"]) ∧
    (a2 = [] ∨ approach <$> a2 = ["Kernel Module"]) ∧
    (a3 = [] ∨ approach <$> a3 = ["Hybrid (Estimated)"]).
Proof.
  rewrite run_all_benchmarks_stages.
  unfold bind at 1. rewrite print_emits. unfold bind at 1. rewrite print_emits.
  set (s1 := emits _ (emits _ st)).
  assert (results s1 = results st) as Hs1 by done. clearbody s1.
  unfold bind at 1.
  destruct (stage_results (path_exists w "../m720_button_remapper_safe.py")
              (nl +:+ "Testing Python userspace approach...") _ _ s1 measures_python)
    as (a1 & Ha1 & Hl1).
  rewrite Hs1 in Ha1.
  destruct (stage _ _ (benchmark_python_approach w) s1) as [[[] | e |] s2];
    cbn [snd] in Ha1.
  2,3: exists a1, [], []; rewrite !app_nil_r; split_and!; auto.
  unfold bind at 1.
  destruct (stage_results
              (path_exists w "../kernel-module/c-implementation/m720_remapper.ko")
              (nl +:+ "Testing kernel module approach...") _ _ s2 measures_kernel)
    as (a2 & Ha2 & Hl2).
  rewrite Ha1 in Ha2.
  destruct (stage _ _ (benchmark_kernel_module lib w) s2) as [[[] | e |] s3];
    cbn [snd] in Ha2.
  2,3: exists a1, a2, []; rewrite !app_nil_r, app_assoc; split_and!; auto.
  unfold bind at 1.
  destruct (stage_results (path_exists w "../kernel-module/hybrid-approach/")
              (nl +:+ "Testing hybrid approach...") _ _ s3 measures_hybrid)
    as (a3 & Ha3 & Hl3).
  rewrite Ha2 in Ha3.
  exists a1, a2, a3.
  destruct (stage _ _ benchmark_hybrid_approach s3) as [[[] | e |] s4];
    cbn [snd] in Ha3 |- *; rewrite ?generate_report_results, Ha3, <- !app_assoc;
    split_and!; auto.
Qed.

(** X11.  Whatever the processes do, [self.results] ends up holding at most
    one record per approach, in the order Python userspace, kernel module,
    hybrid: the names of the records form a sublist of that list. *)
Theorem results_keep_the_order_of_the_approaches args :
  (approach <$> results (main lib w (start args)).2) `sublist_of` approaches.
Proof.
  rewrite main_unfold.
  match goal with |- context [run_all_benchmarks lib w ?s] =>
    destruct (run_all_benchmarks_results s) as (a1 & a2 & a3 & -> & H1 & H2 & H3);
    assert (results s = []) as -> by (by destruct (_ && _)) end.
  cbn [app]. rewrite !fmap_app.
  destruct H1 as [-> | ->], H2 as [-> | ->], H3 as [-> | ->];
    unfold approaches; cbn; by repeat constructor.
Qed.

(** X12.  With none of the three approaches present, a run by root prints
    the title and "No benchmark results available" and does nothing else:
    no process is started and no report is made. *)
Theorem nothing_to_benchmark args :
  geteuid w = 0 →
  path_exists w "../m720_button_remapper_safe.py" = false →
  path_exists w "../kernel-module/c-implementation/m720_remapper.ko" = false →
  path_exists w "../kernel-module/hybrid-approach/" = false →
  main lib w (start args) =
    (Ok tt,
     {| argv := args;
        effects := [Print "M720 Button Remapper Performance Benchmarks";
                    Print (str_repeat "=" 50);
                    Print "No benchmark results available"];
        results := [] |}).
Proof.
  intros Hroot H1 H2 H3. rewrite main_unfold, Hroot. cbn [Z.eqb negb andb].
  rewrite run_all_benchmarks_stages, H1, H2, H3. reflexivity.
Qed.

Lemma bind_Ok_inv {A B} (m : M State A) (k : A → M State B) st b st' :
  bind m k st = (Ok b, st') → ∃ a st1, m st = (Ok a, st1) ∧ k a st1 = (Ok b, st').
Proof.
  unfold bind. destruct (m st) as [[a | e |] st1]; [|done..].
  intros H. by exists a, st1.
Qed.

(** X13.  A run that completes ends with the report: the last thing it does
    is report the records it holds, or say that it has none. *)
Theorem report_closes_every_complete_run args :
  (main lib w (start args)).1 = Ok tt →
  last (effects (main lib w (start args)).2) =
    Some (match results (main lib w (start args)).2 with
          | [] => Print "No benchmark results available"
          | rs => Report rs
          end).
Proof.
  rewrite main_unfold, run_all_benchmarks_stages.
  match goal with |- context [bind ?m ?k ?s] => generalize s end. intros s.
  destruct (bind _ _ s) as [r st'] eqn:Hrun. cbn [fst snd]. intros ->.
  apply bind_Ok_inv in Hrun as (_ & s1 & _ & Hrun).
  apply bind_Ok_inv in Hrun as (_ & s2 & _ & Hrun).
  apply bind_Ok_inv in Hrun as (_ & s3 & _ & Hrun).
  apply bind_Ok_inv in Hrun as (_ & s4 & _ & Hrun).
  apply bind_Ok_inv in Hrun as (_ & s5 & _ & Hrun).
  unfold generate_report in Hrun.
  destruct (results s5) as [| rec rs] eqn:Hres; injection Hrun as <-; cbn;
    rewrite Hres; apply last_snoc.
Qed.

End BenchmarkMore.

(** * The further theorems at work on the sample worlds *)

Section MoreWitnesses.
Import Remapper ecodes Sample.

Lemma only_mapped_presses_have_an_effect_witness :
  mapped_press motion = false ∧
  process_event lib healthy motion initial = (Ok tt, initial).
Proof.
  split; [reflexivity|].
  apply (only_mapped_presses_have_an_effect lib healthy motion initial eq_refl).
Defined.

Lemma chords_follow_presses_in_order_witness :
  calls (handle_mouse_events lib healthy mouse
           [Ready [key BTN_SIDE 1; key BTN_LEFT 1; key BTN_FORWARD 1] Drained]
           initial).2 =
    calls initial ++
      omap injection
        (events_of [Ready [key BTN_SIDE 1; key BTN_LEFT 1; key BTN_FORWARD 1] Drained]) ∧
  runs (handle_mouse_events lib healthy mouse
          [Ready [key BTN_SIDE 1; key BTN_LEFT 1; key BTN_FORWARD 1] Drained]
          initial).2 =
    runs initial ++
      (argv_of <$> omap injection
         (events_of [Ready [key BTN_SIDE 1; key BTN_LEFT 1; key BTN_FORWARD 1] Drained])).
Proof.
  apply (chords_follow_presses_in_order lib healthy mouse
           [Ready [key BTN_SIDE 1; key BTN_LEFT 1; key BTN_FORWARD 1] Drained] initial).
  - intros n argv. exact I.
  - repeat constructor.
Defined.

Lemma main_without_root_only_advises_witness :
  geteuid unprivileged ≠ 0 ∧
  runs (main lib unprivileged [] initial).2 = runs initial ∧
  enums (main lib unprivileged [] initial).2 = enums initial.
Proof.
  split; [discriminate|].
  destruct (main_without_root_only_advises lib unprivileged [] initial)
    as (_ & Hr & He & _); [discriminate|]. by split.
Defined.



Lemma nothing_to_benchmark_witness :
  Benchmark.effects (Benchmark.main lib bare_world (Benchmark.start ["benchmark.py"])).2 =
    [Benchmark.Print "M720 Button Remapper Performance Benchmarks";
     Benchmark.Print (str_repeat "=" 50);
     Benchmark.Print "No benchmark results available"].
Proof.
  by rewrite (nothing_to_benchmark lib bare_world ["benchmark.py"]
                eq_refl eq_refl eq_refl eq_refl).
Defined.

Lemma report_closes_every_complete_run_witness :
  (Benchmark.main lib bench_world
     (Benchmark.start ["benchmark.py"; "--simulate"])).1 = Ok tt ∧
  last (Benchmark.effects (Benchmark.main lib bench_world
          (Benchmark.start ["benchmark.py"; "--simulate"])).2) =
    Some (match Benchmark.results (Benchmark.main lib bench_world
                  (Benchmark.start ["benchmark.py"; "--simulate"])).2 with
          | [] => Benchmark.Print "No benchmark results available"
          | rs => Benchmark.Report rs
          end).
Proof.
  split; [reflexivity|].
  apply (report_closes_every_complete_run lib bench_world
           ["benchmark.py"; "--simulate"]).
  reflexivity.
Defined.

End MoreWitnesses.
